(** * RAG-AWS-Knowledge-Base: the Flask front-end [app.py]

    A shallow embedding of [src/app.py]: the knowledge-base resource manager
    ([BedrockKnowledgeBase]), the upload, query and cleanup handlers, and the
    Python primitives they rely on.  Every outbound call (S3, IAM, Bedrock
    agent, Bedrock runtime) and every log line is recorded in a trace; what a
    call answers, a value or an exception, is decided by an arbitrary
    environment that sees the whole history, so that the theorems hold for
    every behaviour of the managed services.  Responses are JSON-shaped
    values read with the subscripts the program uses, so that a malformed
    response raises as it does in Python.  The upload folder is a set of
    paths: [FileStorage.save] may fail, [os.path.exists] and [os.remove] act
    on the set. *)

From stdpp Require Import base list strings gmap pretty.
From Stdlib Require Import ZArith QArith Ascii String.

#[local] Set Warnings "-register-all".
#[local] Open Scope string_scope.
#[local] Open Scope list_scope.
#[local] Open Scope Z_scope.

(** ** Python data *)

Module Py.

(** JSON-shaped Python data, as boto3 returns it: [None], booleans, integers,
    strings, lists and dictionaries (insertion-ordered, first binding of a
    key wins on lookup). *)
Inductive value : Type :=
| VNone
| VBool (b : bool)
| VInt (z : Z)
| VStr (s : string)
| VList (l : list value)
| VDict (d : list (string * value)).

(** A raised [Exception]: its class name and [str(e)]. *)
Record exn : Type := Exn { exn_class : string; exn_str : string }.

Definition result (A : Type) : Type := (exn + A)%type.

Definition truthy (v : value) : bool :=
  match v with
  | VNone => false
  | VBool b => b
  | VInt z => negb (z =? 0)
  | VStr s => negb (String.eqb s "")
  | VList l => match l with [] => false | _ => true end
  | VDict d => match d with [] => false | _ => true end
  end.

Definition type_name (v : value) : string :=
  match v with
  | VNone => "NoneType"
  | VBool _ => "bool"
  | VInt _ => "int"
  | VStr _ => "str"
  | VList _ => "list"
  | VDict _ => "dict"
  end.

(** *** Strings *)

Definition hex_digit (n : N) : ascii :=
  if (n <? 10)%N then ascii_of_N (48 + n) else ascii_of_N (87 + n).

(** [c in s] for a one-character [c]. *)
Fixpoint str_contains (c : ascii) (s : string) : bool :=
  match s with
  | EmptyString => false
  | String a s' => Ascii.eqb a c || str_contains c s'
  end.

(** [str.lower()] on the ASCII letters; other bytes are kept. *)
Definition lower_char (c : ascii) : ascii :=
  let n := N_of_ascii c in
  if ((65 <=? n) && (n <=? 90))%N then ascii_of_N (n + 32) else c.

Fixpoint lower (s : string) : string :=
  match s with
  | EmptyString => EmptyString
  | String c s' => String (lower_char c) (lower s')
  end.

(** [s.rsplit(sep, 1)]: the string cut at its last [sep], or [[s]] when
    [sep] does not occur. *)
Fixpoint rsplit1 (sep : ascii) (s : string) : list string :=
  match s with
  | EmptyString => [EmptyString]
  | String c s' =>
      match rsplit1 sep s' with
      | [a; b] => [String c a; b]
      | _ => if Ascii.eqb c sep then [EmptyString; s'] else [String c s']
      end
  end.

(** Characters the string functions single out. *)
Definition backslash : ascii := ascii_of_N 92.
Definition squote : ascii := ascii_of_N 39.
Definition dquote : ascii := ascii_of_N 34.
Definition lbrace : ascii := ascii_of_N 123.
Definition rbrace : ascii := ascii_of_N 125.

Definition str1 (c : ascii) : string := String c EmptyString.

(** [repr] of a [str].  A Python string is held as its UTF-8 bytes (a lone
    surrogate as the three bytes of its code point), and [repr] works on
    the code points: the string is quoted with the single quote unless it
    holds a single quote and no double quote; the backslash, the chosen
    quote and the characters that are not printable are escaped. *)

(** [n] in [width] lowercase hexadecimal digits *)
Fixpoint hex (width : nat) (n : N) : string :=
  match width with
  | O => EmptyString
  | S w => hex w (n / 16) +:+ str1 (hex_digit (n mod 16))
  end.

(** The code points from 128 on for which [str.isprintable] is false: the
    categories Cc, Cf, Cs, Co, Cn, Zl, Zp and Zs of Unicode 14.0.0, the
    database of CPython 3.11. *)
Definition not_printable : list (N * N) :=
  [(128, 160); (173, 173); (888, 889); (896, 899); (907, 907); (909, 909);
    (930, 930); (1328, 1328); (1367, 1368); (1419, 1420); (1424, 1424);
    (1480, 1487); (1515, 1518); (1525, 1541); (1564, 1564); (1757, 1757);
    (1806, 1807); (1867, 1868); (1970, 1983); (2043, 2044); (2094, 2095);
    (2111, 2111); (2140, 2141); (2143, 2143); (2155, 2159); (2191, 2199);
    (2274, 2274); (2436, 2436); (2445, 2446); (2449, 2450); (2473, 2473);
    (2481, 2481); (2483, 2485); (2490, 2491); (2501, 2502); (2505, 2506);
    (2511, 2518); (2520, 2523); (2526, 2526); (2532, 2533); (2559, 2560);
    (2564, 2564); (2571, 2574); (2577, 2578); (2601, 2601); (2609, 2609);
    (2612, 2612); (2615, 2615); (2618, 2619); (2621, 2621); (2627, 2630);
    (2633, 2634); (2638, 2640); (2642, 2648); (2653, 2653); (2655, 2661);
    (2679, 2688); (2692, 2692); (2702, 2702); (2706, 2706); (2729, 2729);
    (2737, 2737); (2740, 2740); (2746, 2747); (2758, 2758); (2762, 2762);
    (2766, 2767); (2769, 2783); (2788, 2789); (2802, 2808); (2816, 2816);
    (2820, 2820); (2829, 2830); (2833, 2834); (2857, 2857); (2865, 2865);
    (2868, 2868); (2874, 2875); (2885, 2886); (2889, 2890); (2894, 2900);
    (2904, 2907); (2910, 2910); (2916, 2917); (2936, 2945); (2948, 2948);
    (2955, 2957); (2961, 2961); (2966, 2968); (2971, 2971); (2973, 2973);
    (2976, 2978); (2981, 2983); (2987, 2989); (3002, 3005); (3011, 3013);
    (3017, 3017); (3022, 3023); (3025, 3030); (3032, 3045); (3067, 3071);
    (3085, 3085); (3089, 3089); (3113, 3113); (3130, 3131); (3141, 3141);
    (3145, 3145); (3150, 3156); (3159, 3159); (3163, 3164); (3166, 3167);
    (3172, 3173); (3184, 3190); (3213, 3213); (3217, 3217); (3241, 3241);
    (3252, 3252); (3258, 3259); (3269, 3269); (3273, 3273); (3278, 3284);
    (3287, 3292); (3295, 3295); (3300, 3301); (3312, 3312); (3315, 3327);
    (3341, 3341); (3345, 3345); (3397, 3397); (3401, 3401); (3408, 3411);
    (3428, 3429); (3456, 3456); (3460, 3460); (3479, 3481); (3506, 3506);
    (3516, 3516); (3518, 3519); (3527, 3529); (3531, 3534); (3541, 3541);
    (3543, 3543); (3552, 3557); (3568, 3569); (3573, 3584); (3643, 3646);
    (3676, 3712); (3715, 3715); (3717, 3717); (3723, 3723); (3748, 3748);
    (3750, 3750); (3774, 3775); (3781, 3781); (3783, 3783); (3790, 3791);
    (3802, 3803); (3808, 3839); (3912, 3912); (3949, 3952); (3992, 3992);
    (4029, 4029); (4045, 4045); (4059, 4095); (4294, 4294); (4296, 4300);
    (4302, 4303); (4681, 4681); (4686, 4687); (4695, 4695); (4697, 4697);
    (4702, 4703); (4745, 4745); (4750, 4751); (4785, 4785); (4790, 4791);
    (4799, 4799); (4801, 4801); (4806, 4807); (4823, 4823); (4881, 4881);
    (4886, 4887); (4955, 4956); (4989, 4991); (5018, 5023); (5110, 5111);
    (5118, 5119); (5760, 5760); (5789, 5791); (5881, 5887); (5910, 5918);
    (5943, 5951); (5972, 5983); (5997, 5997); (6001, 6001); (6004, 6015);
    (6110, 6111); (6122, 6127); (6138, 6143); (6158, 6158); (6170, 6175);
    (6265, 6271); (6315, 6319); (6390, 6399); (6431, 6431); (6444, 6447);
    (6460, 6463); (6465, 6467); (6510, 6511); (6517, 6527); (6572, 6575);
    (6602, 6607); (6619, 6621); (6684, 6685); (6751, 6751); (6781, 6782);
    (6794, 6799); (6810, 6815); (6830, 6831); (6863, 6911); (6989, 6991);
    (7039, 7039); (7156, 7163); (7224, 7226); (7242, 7244); (7305, 7311);
    (7355, 7356); (7368, 7375); (7419, 7423); (7958, 7959); (7966, 7967);
    (8006, 8007); (8014, 8015); (8024, 8024); (8026, 8026); (8028, 8028);
    (8030, 8030); (8062, 8063); (8117, 8117); (8133, 8133); (8148, 8149);
    (8156, 8156); (8176, 8177); (8181, 8181); (8191, 8207); (8232, 8239);
    (8287, 8303); (8306, 8307); (8335, 8335); (8349, 8351); (8385, 8399);
    (8433, 8447); (8588, 8591); (9255, 9279); (9291, 9311); (11124, 11125);
    (11158, 11158); (11508, 11512); (11558, 11558); (11560, 11564);
    (11566, 11567); (11624, 11630); (11633, 11646); (11671, 11679);
    (11687, 11687); (11695, 11695); (11703, 11703); (11711, 11711);
    (11719, 11719); (11727, 11727); (11735, 11735); (11743, 11743);
    (11870, 11903); (11930, 11930); (12020, 12031); (12246, 12271);
    (12284, 12288); (12352, 12352); (12439, 12440); (12544, 12548);
    (12592, 12592); (12687, 12687); (12772, 12783); (12831, 12831);
    (42125, 42127); (42183, 42191); (42540, 42559); (42744, 42751);
    (42955, 42959); (42962, 42962); (42964, 42964); (42970, 42993);
    (43053, 43055); (43066, 43071); (43128, 43135); (43206, 43213);
    (43226, 43231); (43348, 43358); (43389, 43391); (43470, 43470);
    (43482, 43485); (43519, 43519); (43575, 43583); (43598, 43599);
    (43610, 43611); (43715, 43738); (43767, 43776); (43783, 43784);
    (43791, 43792); (43799, 43807); (43815, 43815); (43823, 43823);
    (43884, 43887); (44014, 44015); (44026, 44031); (55204, 55215);
    (55239, 55242); (55292, 63743); (64110, 64111); (64218, 64255);
    (64263, 64274); (64280, 64284); (64311, 64311); (64317, 64317);
    (64319, 64319); (64322, 64322); (64325, 64325); (64451, 64466);
    (64912, 64913); (64968, 64974); (64976, 65007); (65050, 65055);
    (65107, 65107); (65127, 65127); (65132, 65135); (65141, 65141);
    (65277, 65280); (65471, 65473); (65480, 65481); (65488, 65489);
    (65496, 65497); (65501, 65503); (65511, 65511); (65519, 65531);
    (65534, 65535); (65548, 65548); (65575, 65575); (65595, 65595);
    (65598, 65598); (65614, 65615); (65630, 65663); (65787, 65791);
    (65795, 65798); (65844, 65846); (65935, 65935); (65949, 65951);
    (65953, 65999); (66046, 66175); (66205, 66207); (66257, 66271);
    (66300, 66303); (66340, 66348); (66379, 66383); (66427, 66431);
    (66462, 66462); (66500, 66503); (66518, 66559); (66718, 66719);
    (66730, 66735); (66772, 66775); (66812, 66815); (66856, 66863);
    (66916, 66926); (66939, 66939); (66955, 66955); (66963, 66963);
    (66966, 66966); (66978, 66978); (66994, 66994); (67002, 67002);
    (67005, 67071); (67383, 67391); (67414, 67423); (67432, 67455);
    (67462, 67462); (67505, 67505); (67515, 67583); (67590, 67591);
    (67593, 67593); (67638, 67638); (67641, 67643); (67645, 67646);
    (67670, 67670); (67743, 67750); (67760, 67807); (67827, 67827);
    (67830, 67834); (67868, 67870); (67898, 67902); (67904, 67967);
    (68024, 68027); (68048, 68049); (68100, 68100); (68103, 68107);
    (68116, 68116); (68120, 68120); (68150, 68151); (68155, 68158);
    (68169, 68175); (68185, 68191); (68256, 68287); (68327, 68330);
    (68343, 68351); (68406, 68408); (68438, 68439); (68467, 68471);
    (68498, 68504); (68509, 68520); (68528, 68607); (68681, 68735);
    (68787, 68799); (68851, 68857); (68904, 68911); (68922, 69215);
    (69247, 69247); (69290, 69290); (69294, 69295); (69298, 69375);
    (69416, 69423); (69466, 69487); (69514, 69551); (69580, 69599);
    (69623, 69631); (69710, 69713); (69750, 69758); (69821, 69821);
    (69827, 69839); (69865, 69871); (69882, 69887); (69941, 69941);
    (69960, 69967); (70007, 70015); (70112, 70112); (70133, 70143);
    (70162, 70162); (70207, 70271); (70279, 70279); (70281, 70281);
    (70286, 70286); (70302, 70302); (70314, 70319); (70379, 70383);
    (70394, 70399); (70404, 70404); (70413, 70414); (70417, 70418);
    (70441, 70441); (70449, 70449); (70452, 70452); (70458, 70458);
    (70469, 70470); (70473, 70474); (70478, 70479); (70481, 70486);
    (70488, 70492); (70500, 70501); (70509, 70511); (70517, 70655);
    (70748, 70748); (70754, 70783); (70856, 70863); (70874, 71039);
    (71094, 71095); (71134, 71167); (71237, 71247); (71258, 71263);
    (71277, 71295); (71354, 71359); (71370, 71423); (71451, 71452);
    (71468, 71471); (71495, 71679); (71740, 71839); (71923, 71934);
    (71943, 71944); (71946, 71947); (71956, 71956); (71959, 71959);
    (71990, 71990); (71993, 71994); (72007, 72015); (72026, 72095);
    (72104, 72105); (72152, 72153); (72165, 72191); (72264, 72271);
    (72355, 72367); (72441, 72703); (72713, 72713); (72759, 72759);
    (72774, 72783); (72813, 72815); (72848, 72849); (72872, 72872);
    (72887, 72959); (72967, 72967); (72970, 72970); (73015, 73017);
    (73019, 73019); (73022, 73022); (73032, 73039); (73050, 73055);
    (73062, 73062); (73065, 73065); (73103, 73103); (73106, 73106);
    (73113, 73119); (73130, 73439); (73465, 73647); (73649, 73663);
    (73714, 73726); (74650, 74751); (74863, 74863); (74869, 74879);
    (75076, 77711); (77811, 77823); (78895, 82943); (83527, 92159);
    (92729, 92735); (92767, 92767); (92778, 92781); (92863, 92863);
    (92874, 92879); (92910, 92911); (92918, 92927); (92998, 93007);
    (93018, 93018); (93026, 93026); (93048, 93052); (93072, 93759);
    (93851, 93951); (94027, 94030); (94088, 94094); (94112, 94175);
    (94181, 94191); (94194, 94207); (100344, 100351); (101590, 101631);
    (101641, 110575); (110580, 110580); (110588, 110588); (110591, 110591);
    (110883, 110927); (110931, 110947); (110952, 110959); (111356, 113663);
    (113771, 113775); (113789, 113791); (113801, 113807); (113818, 113819);
    (113824, 118527); (118574, 118575); (118599, 118607); (118724, 118783);
    (119030, 119039); (119079, 119080); (119155, 119162); (119275, 119295);
    (119366, 119519); (119540, 119551); (119639, 119647); (119673, 119807);
    (119893, 119893); (119965, 119965); (119968, 119969); (119971, 119972);
    (119975, 119976); (119981, 119981); (119994, 119994); (119996, 119996);
    (120004, 120004); (120070, 120070); (120075, 120076); (120085, 120085);
    (120093, 120093); (120122, 120122); (120127, 120127); (120133, 120133);
    (120135, 120137); (120145, 120145); (120486, 120487); (120780, 120781);
    (121484, 121498); (121504, 121504); (121520, 122623); (122655, 122879);
    (122887, 122887); (122905, 122906); (122914, 122914); (122917, 122917);
    (122923, 123135); (123181, 123183); (123198, 123199); (123210, 123213);
    (123216, 123535); (123567, 123583); (123642, 123646); (123648, 124895);
    (124903, 124903); (124908, 124908); (124911, 124911); (124927, 124927);
    (125125, 125126); (125143, 125183); (125260, 125263); (125274, 125277);
    (125280, 126064); (126133, 126208); (126270, 126463); (126468, 126468);
    (126496, 126496); (126499, 126499); (126501, 126502); (126504, 126504);
    (126515, 126515); (126520, 126520); (126522, 126522); (126524, 126529);
    (126531, 126534); (126536, 126536); (126538, 126538); (126540, 126540);
    (126544, 126544); (126547, 126547); (126549, 126550); (126552, 126552);
    (126554, 126554); (126556, 126556); (126558, 126558); (126560, 126560);
    (126563, 126563); (126565, 126566); (126571, 126571); (126579, 126579);
    (126584, 126584); (126589, 126589); (126591, 126591); (126602, 126602);
    (126620, 126624); (126628, 126628); (126634, 126634); (126652, 126703);
    (126706, 126975); (127020, 127023); (127124, 127135); (127151, 127152);
    (127168, 127168); (127184, 127184); (127222, 127231); (127406, 127461);
    (127491, 127503); (127548, 127551); (127561, 127567); (127570, 127583);
    (127590, 127743); (128728, 128732); (128749, 128751); (128765, 128767);
    (128884, 128895); (128985, 128991); (129004, 129007); (129009, 129023);
    (129036, 129039); (129096, 129103); (129114, 129119); (129160, 129167);
    (129198, 129199); (129202, 129279); (129620, 129631); (129646, 129647);
    (129653, 129655); (129661, 129663); (129671, 129679); (129709, 129711);
    (129723, 129727); (129734, 129743); (129754, 129759); (129768, 129775);
    (129783, 129791); (129939, 129939); (129995, 130031); (130042, 131071);
    (173792, 173823); (177977, 177983); (178206, 178207); (183970, 183983);
    (191457, 194559); (195102, 196607); (201547, 917759); (918000, 1114111) ]%N.

Definition isprintable (cp : N) : bool :=
  negb (existsb (fun r : N * N => (r.1 <=? cp) && (cp <=? r.2))%N not_printable).

(** The escape of a code point: two, four or eight digits. *)
Definition escape (cp : N) : string :=
  String backslash
    (if (cp <=? 255)%N then String "x"%char (hex 2 cp)
     else if (cp <=? 65535)%N then String "u"%char (hex 4 cp)
     else String "U"%char (hex 8 cp)).

(** What [repr] writes for the code point [cp], whose bytes are [bytes]. *)
Definition repr_point (quote : ascii) (cp : N) (bytes : string) : string :=
  if (cp =? N_of_ascii backslash)%N then String backslash (str1 backslash)
  else if (cp =? N_of_ascii quote)%N then String backslash (str1 quote)
  else if (cp =? 10)%N then String backslash "n"
  else if (cp =? 13)%N then String backslash "r"
  else if (cp =? 9)%N then String backslash "t"
  else if ((cp <? 32) || (cp =? 127))%N then escape cp
  else if (cp <? 127)%N then bytes
  else if isprintable cp then bytes
  else escape cp.

(** A byte on its own: an ASCII character, or a byte from 128 on that
    belongs to no well-formed sequence, read as the code point of its
    value. *)
Definition repr_char (quote c : ascii) : string :=
  repr_point quote (N_of_ascii c) (str1 c).

Fixpoint repr_bytes (quote : ascii) (s : string) : string :=
  match s with
  | EmptyString => EmptyString
  | String c s' => repr_char quote c +:+ repr_bytes quote s'
  end.

(** A multi-byte sequence under way: its bytes so far, the bits they carry,
    the continuation bytes still due, and the least code point a sequence of
    this length encodes. *)
Record sequence : Type := {
  seq_bytes : string;
  seq_bits : N;
  seq_due : nat;
  seq_least : N
}.

Definition lead (c : ascii) : option sequence :=
  let n := N_of_ascii c in
  if ((192 <=? n) && (n <? 224))%N then
    Some {| seq_bytes := str1 c; seq_bits := n - 192; seq_due := 1; seq_least := 128 |}
  else if ((224 <=? n) && (n <? 240))%N then
    Some {| seq_bytes := str1 c; seq_bits := n - 224; seq_due := 2; seq_least := 2048 |}
  else if ((240 <=? n) && (n <? 248))%N then
    Some {| seq_bytes := str1 c; seq_bits := n - 240; seq_due := 3; seq_least := 65536 |}
  else None.

Definition continuation (c : ascii) : option N :=
  let n := N_of_ascii c in
  if ((128 <=? n) && (n <? 192))%N then Some (n - 128)%N else None.

(** The bytes of a sequence that was cut short *)
Definition repr_cut (quote : ascii) (seq : option sequence) : string :=
  match seq with
  | Some q => repr_bytes quote (seq_bytes q)
  | None => EmptyString
  end.

Fixpoint repr_chars (quote : ascii) (seq : option sequence) (s : string) : string :=
  match s with
  | EmptyString => repr_cut quote seq
  | String c s' =>
      match seq, continuation c with
      | Some q, Some k =>
          let bytes := seq_bytes q +:+ str1 c in
          let cp := (64 * seq_bits q + k)%N in
          match seq_due q with
          | S (S due) =>
              repr_chars quote
                (Some {| seq_bytes := bytes; seq_bits := cp; seq_due := S due;
                         seq_least := seq_least q |}) s'
          | _ =>
              (if ((seq_least q <=? cp) && (cp <=? 1114111))%N
               then repr_point quote cp bytes
               else repr_bytes quote bytes)
              +:+ repr_chars quote None s'
          end
      | _, _ =>
          repr_cut quote seq +:+
          match lead c with
          | Some q => repr_chars quote (Some q) s'
          | None => repr_char quote c +:+ repr_chars quote None s'
          end
      end
  end.

Definition repr_quote (s : string) : ascii :=
  if str_contains squote s && negb (str_contains dquote s)
  then dquote else squote.

Definition repr_str (s : string) : string :=
  let q := repr_quote s in
  String q (repr_chars q None s +:+ str1 q).

(** The elements of [l] joined by a comma and a space. *)
Fixpoint join_comma (l : list string) : string :=
  match l with
  | [] => EmptyString
  | [x] => x
  | x :: l' => x +:+ ", " +:+ join_comma l'
  end.

(** [repr(v)] *)
Fixpoint repr (v : value) : string :=
  match v with
  | VNone => "None"
  | VBool b => if b then "True" else "False"
  | VInt z => pretty z
  | VStr s => repr_str s
  | VList l => "[" +:+ join_comma (map repr l) +:+ "]"
  | VDict d =>
      "{" +:+ join_comma (map (fun kv => repr_str kv.1 +:+ ": " +:+ repr kv.2) d) +:+ "}"
  end.

(** [str(v)], which is what an f-string field renders. *)
Definition str (v : value) : string :=
  match v with
  | VStr s => s
  | _ => repr v
  end.

(** *** Operations on values

    Each one answers as Python does on JSON-shaped data: a value, or the
    exception raised.  The wording of [TypeError] and [AttributeError]
    messages follows CPython 3. *)

Fixpoint assoc {A : Type} (k : string) (d : list (string * A)) : option A :=
  match d with
  | [] => None
  | (k', v) :: d' => if String.eqb k' k then Some v else assoc k d'
  end.

Definition TypeError (msg : string) : exn := Exn "TypeError" msg.

(** [v[k]] for a string key [k] *)
Definition getitem (v : value) (k : string) : result value :=
  match v with
  | VDict d =>
      match assoc k d with
      | Some x => inr x
      | None => inl (Exn "KeyError" (repr_str k))
      end
  | VList _ => inl (TypeError "list indices must be integers or slices, not str")
  | VStr _ => inl (TypeError "string indices must be integers, not 'str'")
  | _ => inl (TypeError ("'" +:+ type_name v +:+ "' object is not subscriptable"))
  end.

(** [v[0]] *)
Definition getitem0 (v : value) : result value :=
  match v with
  | VList l =>
      match l with
      | x :: _ => inr x
      | [] => inl (Exn "IndexError" "list index out of range")
      end
  | VStr s =>
      match s with
      | String c _ => inr (VStr (str1 c))
      | EmptyString => inl (Exn "IndexError" "string index out of range")
      end
  | VDict _ => inl (Exn "KeyError" "0")
  | _ => inl (TypeError ("'" +:+ type_name v +:+ "' object is not subscriptable"))
  end.

(** [v.get(k, dflt)] *)
Definition get (v : value) (k : string) (dflt : value) : result value :=
  match v with
  | VDict d => inr (default dflt (assoc k d))
  | _ => inl (Exn "AttributeError"
               ("'" +:+ type_name v +:+ "' object has no attribute 'get'"))
  end.

Fixpoint chars (s : string) : list value :=
  match s with
  | EmptyString => []
  | String c s' => VStr (str1 c) :: chars s'
  end.

(** The elements a [for] loop over [v] visits. *)
Definition iter (v : value) : result (list value) :=
  match v with
  | VList l => inr l
  | VDict d => inr (map (fun kv => VStr kv.1) d)
  | VStr s => inr (chars s)
  | _ => inl (TypeError ("'" +:+ type_name v +:+ "' object is not iterable"))
  end.

Definition is_str (k : string) (v : value) : bool :=
  match v with
  | VStr s => String.eqb s k
  | _ => false
  end.

(** [k in v] for a string [k] *)
Definition contains (k : string) (v : value) : result bool :=
  match v with
  | VDict d => inr (match assoc k d with Some _ => true | None => false end)
  | VList l => inr (existsb (is_str k) l)
  | VStr s => inr (match String.index 0 k s with Some _ => true | None => false end)
  | _ => inl (TypeError ("argument of type '" +:+ type_name v +:+ "' is not iterable"))
  end.

(** A list comprehension whose element expression may raise. *)
Fixpoint comprehension {A B : Type} (f : A -> result B) (l : list A) : result (list B) :=
  match l with
  | [] => inr []
  | x :: l' =>
      match f x with
      | inl e => inl e
      | inr y =>
          match comprehension f l' with
          | inl e => inl e
          | inr ys => inr (y :: ys)
          end
      end
  end.

(** *** [str.format]

    The literal text of a format string, as the scanner of [str.format]
    reads it from the left: text is copied, a doubled brace stands for one
    brace, a closing brace on its own raises [ValueError], and so does an
    opening brace that ends the string.  An opening brace followed by
    anything else begins a replacement field; what the formatter does from
    there on (field names, conversions, format specs, the rendering of
    objects) is not modelled: the result of such a call is taken from
    [fields], which stands for CPython's formatter. *)

Definition ValueError (msg : string) : exn := Exn "ValueError" msg.

(** The outcome of a format string without replacement field; [None] when
    a field begins before the scan has raised. *)
Fixpoint format_literal (s : string) : option (result string) :=
  match s with
  | EmptyString => Some (inr EmptyString)
  | String c s' =>
      let copy (t : string) (rest : string) : option (result string) :=
        match format_literal rest with
        | Some (inr u) => Some (inr (t +:+ u))
        | r => r
        end in
      if Ascii.eqb c lbrace then
        match s' with
        | EmptyString => Some (inl (ValueError "Single '{' encountered in format string"))
        | String c' s'' => if Ascii.eqb c' lbrace then copy (str1 lbrace) s'' else None
        end
      else if Ascii.eqb c rbrace then
        match s' with
        | String c' s'' =>
            if Ascii.eqb c' rbrace then copy (str1 rbrace) s''
            else Some (inl (ValueError "Single '}' encountered in format string"))
        | EmptyString => Some (inl (ValueError "Single '}' encountered in format string"))
        end
      else copy (str1 c) s'
  end.

(** [s.format( *args )] *)
Definition format (fields : string -> list value -> result string)
    (s : string) (args : list value) : result string :=
  match format_literal s with
  | Some r => r
  | None => fields s args
  end.

End Py.

Import Py.

(** ** Requests and responses *)

(** [werkzeug.FileStorage]: the client's file name and the content. *)
Record FileStorage : Type := { filename : string; stream : string }.

Inductive http_method : Type := GET | POST.

(** [flask.request], as far as the handlers read it. *)
Record request : Type := {
  method : http_method;
  files : list (string * FileStorage);
  form : list (string * string)
}.

Inductive body : Type :=
| Json (v : value)        (* [jsonify(v)] *)
| Html (template : string) (* [render_template(template)] *)
| Raw (v : value).        (* a view that returns the bare value *)

Record response : Type := { body_of : body; status : Z }.

Definition jsonify (d : list (string * value)) : body := Json (VDict d).

(** ** Outbound calls *)

Record content_block : Type := { block_type : string; block_text : string }.

Record message : Type := { role : string; content : list content_block }.

(** The dictionary [json.dumps] serialises into the body of [invoke_model]. *)
Record sonnet_payload : Type := {
  anthropic_version : string;
  max_tokens : Z;
  messages : list message;
  temperature : Q;
  top_p : Z
}.

(** One constructor per client method the program invokes, with the keyword
    arguments that vary; the constant documents (the trust policy of the
    role, the actions of the policy, the type and prefixes of a data source)
    are left out.  [File_save] is [FileStorage.save]. *)
Inductive call : Type :=
| S3_create_bucket (Bucket : string)
| S3_upload_file (Filename Bucket Key : string)
| S3_list_objects_v2 (Bucket : string)
| S3_delete_objects (Bucket : string) (Keys : list value)
| S3_delete_bucket (Bucket : string)
| Iam_create_role (RoleName : string)
| Iam_create_policy (PolicyName : string) (Resource : list string)
| Iam_attach_role_policy (RoleName : string) (PolicyArn : value)
| Agent_create_knowledge_base (name description : string) (roleArn : value)
    (embeddingModelArn : string)
| Agent_create_data_source (knowledgeBaseId : value) (name bucketArn : string)
    (chunkingStrategy : string)
| Agent_start_ingestion_job (knowledgeBaseId : value)
| Agent_list_data_sources (knowledgeBaseId : value)
| Agent_delete_data_source (knowledgeBaseId dataSourceId : value)
| Agent_delete_knowledge_base (knowledgeBaseId : value)
| Runtime_retrieve (text : string) (knowledgeBaseId : value)
    (numberOfResults : Z) (overrideSearchType : string)
| Runtime_invoke_model (payload : sonnet_payload) (modelId accept contentType : string)
| File_save (path : string).

Inductive level : Type := INFO | ERROR.

Inductive event : Type :=
| Call (c : call)
| Log (lvl : level) (msg : string).

(** The environment: what a call answers, given everything that happened
    before it. *)
Definition world : Type := list event -> call -> result value.

(** ** The knowledge-base object and the process state *)

Record data_source : Type := { source_type : string; bucket_name : string }.

Record BedrockKnowledgeBase : Type := {
  kb_name : string;
  kb_description : string;
  data_sources : list data_source;
  chunking_strategy : string;
  suffix : string;
  kb_id : value
}.

Definition set_kb_id (self : BedrockKnowledgeBase) (v : value) : BedrockKnowledgeBase :=
  {| kb_name := kb_name self; kb_description := kb_description self;
     data_sources := data_sources self; chunking_strategy := chunking_strategy self;
     suffix := suffix self; kb_id := v |}.

(** The trace of events so far, the paths present under the upload folder,
    and the module-level [kb_instance] ([None] while the name is unbound). *)
Record state : Type := {
  trace : list event;
  disk : gset string;
  kb_instance : option BedrockKnowledgeBase
}.

Definition with_trace (st : state) (t : list event) : state :=
  {| trace := t; disk := disk st; kb_instance := kb_instance st |}.

Definition with_disk (st : state) (d : gset string) : state :=
  {| trace := trace st; disk := d; kb_instance := kb_instance st |}.

(** ** Computations: state passing with exceptions *)

Definition M (A : Type) : Type := state -> result A * state.

#[global] Instance M_ret : MRet M := fun A x st => (inr x, st).

#[global] Instance M_bind : MBind M := fun A B k m st =>
  match m st with
  | (inl e, st') => (inl e, st')
  | (inr x, st') => k x st'
  end.

Definition raise {A : Type} (e : exn) : M A := fun st => (inl e, st).

Definition lift {A : Type} (r : result A) : M A := fun st => (r, st).

(** [try: m except Exception as e: h e] *)
Definition try_except {A : Type} (m : M A) (h : exn -> M A) : M A := fun st =>
  match m st with
  | (inl e, st') => h e st'
  | (inr x, st') => (inr x, st')
  end.

(** [try: m finally: f]: [f] runs on every exit of [m]; an exception of [f]
    replaces the outcome of [m]. *)
Definition try_finally {A : Type} (m : M A) (f : M unit) : M A := fun st =>
  match m st with
  | (r, st') =>
      match f st' with
      | (inl e, st'') => (inl e, st'')
      | (inr _, st'') => (r, st'')
      end
  end.

(** [for x in l: body x] *)
Fixpoint for_each {A : Type} (l : list A) (body : A -> M unit) : M unit :=
  match l with
  | [] => mret tt
  | x :: l' => body x ;; for_each l' body
  end.

Definition logger (lvl : level) (msg : string) : M unit := fun st =>
  (inr tt, with_trace st (trace st ++ [Log lvl msg])).

Definition get_kb_instance : M BedrockKnowledgeBase := fun st =>
  match kb_instance st with
  | Some kb => (inr kb, st)
  | None => (inl (Exn "NameError" "name 'kb_instance' is not defined"), st)
  end.

(** [os.path.exists], [os.remove] *)
Definition path_exists (p : string) : M bool := fun st =>
  (inr (bool_decide (p ∈ disk st)), st).

Definition os_remove (p : string) : M unit := fun st =>
  if bool_decide (p ∈ disk st) then (inr tt, with_disk st (disk st ∖ {[p]}))
  else (inl (Exn "FileNotFoundError"
              ("[Errno 2] No such file or directory: " +:+ repr_str p)), st).

(** ** The program *)

Definition UPLOAD_FOLDER : string := "uploads".
Definition ALLOWED_EXTENSIONS : gset string := {[ "pdf" ]}.
Definition foundation_model : string := "anthropic.claude-3-sonnet-20240229-v1:0".

(** [allowed_file], lines 241-243.  The index [1] is guarded by the test for
    a dot, which [and] evaluates first. *)
Definition allowed_file (filename : string) : result bool :=
  if str_contains "."%char filename then
    match rsplit1 "."%char filename !! 1%nat with
    | Some ext => inr (bool_decide (lower ext ∈ ALLOWED_EXTENSIONS))
    | None => inl (Exn "IndexError" "list index out of range")
    end
  else inr false.

(** [os.path.join(a, b)] on POSIX for a non-empty [a] without trailing slash *)
Definition path_join (a b : string) : string :=
  match b with
  | String "/" _ => b
  | _ => a +:+ "/" +:+ b
  end.

Definition newline : string := str1 (ascii_of_N 10).

Fixpoint unlines (l : list string) : string :=
  match l with
  | [] => EmptyString
  | [x] => x
  | x :: l' => x +:+ newline +:+ unlines l'
  end.

(** The f-string of lines 327-341, with [contexts] and [query] rendered. *)
Definition prompt_template (contexts : value) (query : string) : string :=
  unlines [
    "";
    "            Human: You are a financial advisor AI system, and provides answers to questions by using fact based and statistical information when possible. ";
    "            Use the following pieces of information to provide a concise answer to the question enclosed in <question> tags. ";
    "            If you don't know the answer, just say that you don't know, don't try to make up an answer.";
    "            <context>";
    "            " +:+ str contexts;
    "            </context>";
    "";
    "            <question>";
    "            " +:+ query;
    "            </question>";
    "";
    "            The response should be specific and use statistics or numbers when possible.";
    "";
    "            Assistant:" ].

Definition is_S3 (source : data_source) : bool := String.eqb (source_type source) "S3".

Definition get_knowledge_base_id (self : BedrockKnowledgeBase) : value := kb_id self.

Section App.

(** The managed services, the library functions [secure_filename] and
    [json.loads], CPython's formatter of replacement fields (see [format]),
    and the module-level settings computed at import time. *)
Context (W : world)
        (secure_filename : string -> string)
        (json_loads : string -> result value)
        (format_fields : string -> list value -> result string)
        (region : value)
        (data_bucket_name : string).

(** An outbound call: the trace records that the program reaches the call
    with these arguments, and the environment decides what comes of it: a
    value, or an exception, that of a client without the method included. *)
Definition invoke (c : call) : M value := fun st =>
  (W (trace st) c, with_trace st (trace st ++ [Call c])).

(** [file.save(path)]: the file exists afterwards unless saving raised. *)
Definition save (file : FileStorage) (path : string) : M unit := fun st =>
  match W (trace st) (File_save path) with
  | inl e => (inl e, with_trace st (trace st ++ [Call (File_save path)]))
  | inr _ => (inr tt, {| trace := trace st ++ [Call (File_save path)];
                         disk := disk st ∪ {[path]};
                         kb_instance := kb_instance st |})
  end.

(** *** [BedrockKnowledgeBase] *)

(** [_create_role_for_kb], lines 92-144 *)
Definition _create_role_for_kb (self : BedrockKnowledgeBase) : M value :=
  let role_name := "BedrockKBRole-" +:+ suffix self in
  try_except
    (response ← invoke (Iam_create_role role_name);
     let policy_name := "BedrockKBPolicy-" +:+ suffix self in
     policy_response ← invoke (Iam_create_policy policy_name
       [ "arn:aws:s3:::" +:+ data_bucket_name;
         "arn:aws:s3:::" +:+ data_bucket_name +:+ "/*" ]);
     policy ← lift (getitem policy_response "Policy");
     policy_arn ← lift (getitem policy "Arn");
     invoke (Iam_attach_role_policy role_name policy_arn);;
     role ← lift (getitem response "Role");
     lift (getitem role "Arn"))
    (fun e =>
       logger ERROR ("Error creating IAM role: " +:+ exn_str e);;
       raise e).

(** [_add_s3_data_source], lines 146-169 *)
Definition _add_s3_data_source (self : BedrockKnowledgeBase) (bucket_name : string)
    : M value :=
  try_except
    (response ← invoke (Agent_create_data_source (kb_id self)
       ("s3-source-" +:+ bucket_name) ("arn:aws:s3:::" +:+ bucket_name)
       (chunking_strategy self));
     logger INFO ("Added S3 data source: " +:+ bucket_name);;
     ds ← lift (getitem response "dataSource");
     lift (getitem ds "dataSourceId"))
    (fun e =>
       logger ERROR ("Error adding data source: " +:+ exn_str e);;
       raise e).

(** The loop body of lines 57-63: the handler logs and does not raise. *)
Definition create_source_bucket (source : data_source) : M unit :=
  if is_S3 source then
    try_except
      (invoke (S3_create_bucket (bucket_name source));;
       logger INFO ("Created S3 bucket: " +:+ bucket_name source))
      (fun e => logger ERROR ("Error creating bucket: " +:+ exn_str e))
  else mret tt.

(** [_setup_knowledge_base], lines 55-90.  The object is returned with its
    [kb_id] assigned, next to the value the method returns; when the method
    raises, the constructor raises and the object is never bound. *)
Definition _setup_knowledge_base (self : BedrockKnowledgeBase)
    : M (BedrockKnowledgeBase * value) :=
  for_each (data_sources self) create_source_bucket;;
  try_except
    (roleArn ← _create_role_for_kb self;
     response ← invoke (Agent_create_knowledge_base (kb_name self)
       (kb_description self) roleArn
       ("arn:aws:bedrock:" +:+ str region
          +:+ "::foundation-model/amazon.titan-embed-text-v1"));
     kb ← lift (getitem response "knowledgeBase");
     id ← lift (getitem kb "knowledgeBaseId");
     let self := set_kb_id self id in
     logger INFO ("Created Knowledge Base with ID: " +:+ str (kb_id self));;
     for_each (data_sources self) (fun source =>
       if is_S3 source then
         _add_s3_data_source self (bucket_name source);; mret tt
       else mret tt);;
     mret (self, kb_id self))
    (fun e =>
       logger ERROR ("Error creating Knowledge Base: " +:+ exn_str e);;
       raise e).

(** [start_ingestion_job], lines 174-184 *)
Definition start_ingestion_job (self : BedrockKnowledgeBase) : M value :=
  try_except
    (response ← invoke (Agent_start_ingestion_job (kb_id self));
     job ← lift (getitem response "ingestionJob");
     job_id ← lift (getitem job "ingestionJobId");
     logger INFO ("Started ingestion job: " +:+ str job_id);;
     job ← lift (getitem response "ingestionJob");
     lift (getitem job "ingestionJobId"))
    (fun e =>
       logger ERROR ("Error starting ingestion job: " +:+ exn_str e);;
       raise e).

(** The loop body of lines 191-196 *)
Definition delete_one_data_source (self : BedrockKnowledgeBase) (ds : value) : M unit :=
  ds_id ← lift (getitem ds "dataSourceId");
  invoke (Agent_delete_data_source (kb_id self) ds_id);;
  ds_id ← lift (getitem ds "dataSourceId");
  logger INFO ("Deleted data source: " +:+ str ds_id).

(** The loop body of lines 204-214 *)
Definition purge_bucket (source : data_source) : M unit :=
  if is_S3 source then
    objects ← invoke (S3_list_objects_v2 (bucket_name source));
    has_contents ← lift (contains "Contents" objects);
    (if has_contents : bool then
       contents ← lift (getitem objects "Contents");
       objs ← lift (iter contents);
       keys ← lift (comprehension (fun obj => getitem obj "Key") objs);
       invoke (S3_delete_objects (bucket_name source) keys);; mret tt
     else mret tt);;
    invoke (S3_delete_bucket (bucket_name source));;
    logger INFO ("Deleted S3 bucket: " +:+ bucket_name source)
  else mret tt.

(** [delete_kb], lines 186-218 *)
Definition delete_kb (self : BedrockKnowledgeBase) (delete_s3_bucket : bool) : M unit :=
  try_except
    (if truthy (kb_id self) then
       data_sources_response ← invoke (Agent_list_data_sources (kb_id self));
       summaries ← lift (get data_sources_response "dataSourceSummaries" (VList []));
       dss ← lift (iter summaries);
       for_each dss (delete_one_data_source self);;
       invoke (Agent_delete_knowledge_base (kb_id self));;
       logger INFO ("Deleted Knowledge Base: " +:+ str (kb_id self));;
       if delete_s3_bucket then for_each (data_sources self) purge_bucket
       else mret tt
     else mret tt)
    (fun e =>
       logger ERROR ("Error deleting resources: " +:+ exn_str e);;
       raise e).

(** *** Routes *)

Definition respond (b : body) (code : Z) : M response :=
  mret {| body_of := b; status := code |}.

(** The local [render_template] of lines 680-686, for its three templates. *)
Definition render_template (template_name : string) : M response :=
  respond (Html template_name) 200.

(** The truth value of a [FileStorage] is that of its file name. *)
Definition file_truthy (file : FileStorage) : bool :=
  negb (String.eqb (filename file) "").

(** Lines 269-289: the remote copy and the ingestion trigger, with the
    removal of the local file in [finally]. *)
Definition upload_to_s3 (file_path filename : string) : M response :=
  try_finally
    (try_except
       (invoke (S3_upload_file file_path data_bucket_name filename);;
        kb ← get_kb_instance;
        ingestion_job_id ← start_ingestion_job kb;
        respond (jsonify [ ("message", VStr "File uploaded successfully");
                           ("filename", VStr filename);
                           ("ingestion_job_id", ingestion_job_id) ]) 200)
       (fun e =>
          logger ERROR ("Error uploading file: " +:+ exn_str e);;
          respond (jsonify [ ("error", VStr (exn_str e)) ]) 500))
    (present ← path_exists file_path;
     if present : bool then os_remove file_path else mret tt).

(** [upload_file], lines 250-293 *)
Definition upload_file (req : request) : M response :=
  match method req with
  | POST =>
      match assoc "file" (files req) with
      | None => respond (jsonify [ ("error", VStr "No file part") ]) 400
      | Some file =>
          if String.eqb (filename file) "" then
            respond (jsonify [ ("error", VStr "No selected file") ]) 400
          else
            allowed ← (if file_truthy file then lift (allowed_file (filename file))
                       else mret false);
            if allowed : bool then
              let filename := secure_filename (filename file) in
              let file_path := path_join UPLOAD_FOLDER filename in
              save file file_path;;
              upload_to_s3 file_path filename
            else respond (jsonify [ ("error", VStr "Invalid file type") ]) 400
      end
  | GET => render_template "upload.html"
  end.

(** [response.get('body').read()], the streaming body standing for the text
    it yields *)
Definition read (v : value) : result string :=
  match v with
  | VStr s => inr s
  | _ => inl (Exn "AttributeError"
               ("'" +:+ type_name v +:+ "' object has no attribute 'read'"))
  end.

(** Lines 322-325 *)
Definition context_text (retrievedResult : value) : result value :=
  match getitem retrievedResult "content" with
  | inl e => inl e
  | inr c => getitem c "text"
  end.

Definition sonnet (text : string) : sonnet_payload :=
  {| anthropic_version := "bedrock-2023-05-31";
     max_tokens := 512;
     messages := [ {| role := "user";
                      content := [ {| block_type := "text"; block_text := text |} ] |} ];
     temperature := 0.5;
     top_p := 1 |}.

(** Lines 303-356: the body of [try] in [query_kb] *)
Definition retrieve_and_generate (query : string) : M response :=
  kb ← get_kb_instance;
  let kb_id := get_knowledge_base_id kb in
  response ← invoke (Runtime_retrieve query kb_id 5 "HYBRID");
  retrievalResults ← lift (getitem response "retrievalResults");
  results ← lift (iter retrievalResults);
  contexts ← lift (comprehension context_text results);
  let prompt := prompt_template (VList contexts) query in
  text ← lift (format format_fields prompt [VList contexts; VStr query]);
  let modelId := "anthropic.claude-3-sonnet-20240229-v1:0" in
  let accept := "application/json" in
  let contentType := "application/json" in
  response ← invoke (Runtime_invoke_model (sonnet text) modelId accept contentType);
  stream ← lift (get response "body" VNone);
  raw ← lift (read stream);
  response_body ← lift (json_loads raw);
  blocks ← lift (get response_body "content" VNone);
  first ← lift (getitem0 blocks);
  response_text ← lift (getitem first "text");
  respond (Raw response_text) 200.

(** [not query] for the [str] or [None] that [request.form.get] returns *)
Definition query_missing (query : option string) : bool :=
  match query with
  | None => true
  | Some q => String.eqb q ""
  end.

(** [query_kb], lines 295-362 *)
Definition query_kb (req : request) : M response :=
  match method req with
  | POST =>
      let query := assoc "query" (form req) in
      if query_missing query then
        respond (jsonify [ ("error", VStr "No query provided") ]) 400
      else
        try_except
          (retrieve_and_generate (default "" query))
          (fun e =>
             logger ERROR ("Error querying knowledge base: " +:+ exn_str e);;
             respond (jsonify [ ("error", VStr (exn_str e)) ]) 500)
  | GET => render_template "query.html"
  end.

(** [cleanup], lines 386-393 *)
Definition cleanup : M response :=
  try_except
    (kb ← get_kb_instance;
     delete_kb kb true;;
     respond (jsonify [ ("message", VStr "Resources cleaned up successfully") ]) 200)
    (fun e =>
       logger ERROR ("Error cleaning up: " +:+ exn_str e);;
       respond (jsonify [ ("error", VStr (exn_str e)) ]) 500).

End App.

(** ** Startup *)

Section Startup.

(** The region of the session, and the two strings the settings of lines
    38-41 are built from: the tail of the timestamp (which is also the
    module-level [suffix]) and the account of the caller. *)
Context (W : world) (region : value) (timestamp_str account_id : string).

Definition knowledge_base_name : string := "bedrock-flask-kb-" +:+ timestamp_str.

Definition data_bucket_name : string :=
  "bedrock-kb-data-" +:+ timestamp_str +:+ "-" +:+ account_id.

(** The assignment to the module-level [kb_instance] *)
Definition bind_kb_instance (kb : BedrockKnowledgeBase) : M unit := fun st =>
  (inr tt, {| trace := trace st; disk := disk st; kb_instance := Some kb |}).

(** [BedrockKnowledgeBase.__init__], lines 46-53 *)
Definition __init__ (kb_name kb_description : string) (data_sources : list data_source)
    (chunking_strategy suffix : string) : M BedrockKnowledgeBase :=
  let self := {| kb_name := kb_name; kb_description := kb_description;
                 data_sources := data_sources; chunking_strategy := chunking_strategy;
                 suffix := suffix; kb_id := VNone |} in
  created ← _setup_knowledge_base W region data_bucket_name self;
  mret created.1.

(** [initialize_kb], lines 221-238 *)
Definition initialize_kb : M value :=
  let data_sources := [ {| source_type := "S3"; bucket_name := data_bucket_name |} ] in
  kb ← __init__ knowledge_base_name "Knowledge base for PDF documents" data_sources
         "FIXED_SIZE" timestamp_str;
  bind_kb_instance kb;;
  kb ← get_kb_instance;
  mret (get_knowledge_base_id kb).

End Startup.

(** ** The status route *)

Module Status.

(** The two read-only calls of the route, and what it appends to the log. *)
Inductive call : Type :=
| Agent_get_knowledge_base (knowledgeBaseId : value)
| Agent_list_ingestion_jobs (knowledgeBaseId : value).

Inductive event : Type :=
| Call (c : call)
| Log (lvl : level) (msg : string).

Definition world : Type := list event -> call -> result value.

#[local] Instance result_ret : MRet result := fun A x => inr x.

#[local] Instance result_bind : MBind result := fun A B k r =>
  match r with
  | inl e => inl e
  | inr x => k x
  end.

(** The element of the comprehension of lines 376-379 *)
Definition job_entry (job : value) : result value :=
  id ← getitem job "ingestionJobId";
  job_status ← getitem job "status";
  mret (VDict [ ("id", id); ("status", job_status) ]).

(** The dictionary of lines 373-380, its entries evaluated in order *)
Definition status_dict (kb_id kb_status ingestion_jobs : value) : result value :=
  kb ← getitem kb_status "knowledgeBase";
  state_of_kb ← getitem kb "status";
  summaries ← get ingestion_jobs "ingestionJobSummaries" (VList []);
  jobs ← iter summaries;
  entries ← comprehension job_entry jobs;
  mret (VDict [ ("kb_id", kb_id); ("kb_status", state_of_kb);
                ("ingestion_jobs", VList entries) ]).

(** The [try] block of lines 367-380, from history [h]: its outcome and the
    calls it made. *)
Definition describe (W : world) (h : list event)
    (kb_instance : option BedrockKnowledgeBase) : result value * list event :=
  match kb_instance with
  | None => (inl (Exn "NameError" "name 'kb_instance' is not defined"), [])
  | Some kb =>
      let kb_id := get_knowledge_base_id kb in
      let c1 := Agent_get_knowledge_base kb_id in
      match W h c1 with
      | inl e => (inl e, [Call c1])
      | inr kb_status =>
          let c2 := Agent_list_ingestion_jobs kb_id in
          match W (h ++ [Call c1]) c2 with
          | inl e => (inl e, [Call c1; Call c2])
          | inr ingestion_jobs =>
              (status_dict kb_id kb_status ingestion_jobs, [Call c1; Call c2])
          end
      end
  end.

(** [status], lines 364-384: the response and the events appended. *)
Definition status (W : world) (h : list event)
    (kb_instance : option BedrockKnowledgeBase) : response * list event :=
  match describe W h kb_instance with
  | (inr d, evs) => ({| body_of := Json d; status := 200 |}, evs)
  | (inl e, evs) =>
      ({| body_of := jsonify [ ("error", VStr (exn_str e)) ]; status := 500 |},
       evs ++ [Log ERROR ("Error getting status: " +:+ exn_str e)])
  end.

End Status.

(** ** Notions the statements use *)



(** [s.endswith(suf)] *)
Fixpoint ends_with (suf s : string) : bool :=
  String.eqb s suf ||
  match s with
  | EmptyString => false
  | String _ s' => ends_with suf s'
  end.

(** A file name that carries the allowed extension once lowercased. *)
Definition has_pdf_extension (filename : string) : bool :=
  ends_with ".pdf" (lower filename).

(** The path under which [upload_file] keeps the local copy. *)
Definition local_path (secure_filename : string -> string) (file : FileStorage) : string :=
  path_join UPLOAD_FOLDER (secure_filename (filename file)).

(** *** Runs and their traces *)

(** [steps R m]: every run of [m] takes a state to one related by [R]. *)
Definition steps (R : relation state) {A : Type} (m : M A) : Prop :=
  forall st, R st (m st).2.

(** The run appends events that satisfy [Q] and leaves [kb_instance] alone. *)
Definition appends (Q : event -> Prop) : relation state := fun st st' =>
  kb_instance st' = kb_instance st /\
  exists evs, trace st' = trace st ++ evs /\ Forall Q evs.

(** The run appends [ev], then events that satisfy [Q]. *)
Definition first_then (ev : event) (Q : event -> Prop) : relation state := fun st st' =>
  kb_instance st' = kb_instance st /\
  exists evs, trace st' = trace st ++ ev :: evs /\ Forall Q evs.

Definition any_event (ev : event) : Prop := True.

(** *** Provisioning *)

Definition bucket_creation (c : call) : Prop :=
  match c with S3_create_bucket _ => True | _ => False end.

Definition provisioning_call (c : call) : Prop :=
  match c with
  | S3_create_bucket _ | Iam_create_role _ | Iam_create_policy _ _
  | Iam_attach_role_policy _ _ | Agent_create_knowledge_base _ _ _ _
  | Agent_create_data_source _ _ _ _ => True
  | _ => False
  end.

(** The provisioning steps after the buckets: role, policy, knowledge base
    and data sources. *)
Definition beyond_bucket (c : call) : Prop := provisioning_call c /\ ~ bucket_creation c.

Definition bucket_event (ev : event) : Prop :=
  match ev with
  | Log _ _ => True
  | Call c => bucket_creation c
  end.

(** A run from history [h] that appended [evs] and ended in [r] propagates
    the errors of the calls in [critical]: whenever such a call raised, its
    exception is the outcome of the run and no call was made after it. *)
Definition propagates (W : world) (critical : call -> Prop) {A : Type}
    (h evs : list event) (r : result A) : Prop :=
  forall i c e,
    evs !! i = Some (Call c) -> critical c -> W (h ++ take i evs) c = inl e ->
    r = inl e /\ forall j c', (i < j)%nat -> evs !! j <> Some (Call c').

Definition propagating (W : world) (critical : call -> Prop) {A : Type} (m : M A) : Prop :=
  forall st, exists evs,
    trace (m st).2 = trace st ++ evs /\ propagates W critical (trace st) evs (m st).1.

(** An event that is no call in [critical]. *)
Definition quiet (critical : call -> Prop) (ev : event) : Prop :=
  match ev with
  | Log _ _ => True
  | Call c => ~ critical c
  end.

(** *** Teardown *)

Definition binding_event (ev : event) : Prop :=
  match ev with
  | Log _ _ => True
  | Call (Agent_list_data_sources _) | Call (Agent_delete_data_source _ _) => True
  | Call _ => False
  end.

Definition storage_call (c : call) : Prop :=
  match c with
  | S3_list_objects_v2 _ | S3_delete_objects _ _ | S3_delete_bucket _ => True
  | _ => False
  end.

Definition storage_event (ev : event) : Prop :=
  match ev with
  | Log _ _ => True
  | Call c => storage_call c
  end.

(** The data-source bindings [delete_kb] iterates over, from history [h]. *)
Definition listed_data_sources (W : world) (self : BedrockKnowledgeBase)
    (h : list event) : result (list value) :=
  match W h (Agent_list_data_sources (kb_id self)) with
  | inl e => inl e
  | inr response =>
      match get response "dataSourceSummaries" (VList []) with
      | inl e => inl e
      | inr summaries => iter summaries
      end
  end.

(** The events of [delete_kb]: those about the bindings, then, if it is
    reached, the deletion of the knowledge base followed by those about the
    storage.  The knowledge base is only deleted after the loop over the
    listed bindings has completed. *)
Definition deletion_shape (W : world) (self : BedrockKnowledgeBase)
    (h evs : list event) : Prop :=
  exists A B,
    evs = A ++ B /\ Forall binding_event A
    /\ (B = [] \/
        exists C dss,
          B = Call (Agent_delete_knowledge_base (kb_id self)) :: C
          /\ Forall storage_event C
          /\ listed_data_sources W self h = inr dss
          /\ forall ds, ds ∈ dss ->
               exists id, getitem ds "dataSourceId" = inr id
                          /\ Call (Agent_delete_data_source (kb_id self) id) ∈ A).

(** *** Queries *)



(** The passages lines 322-325 collect from a retrieval response. *)
Definition retrieved_texts (response : value) : result (list value) :=
  match getitem response "retrievalResults" with
  | inl e => inl e
  | inr retrievalResults =>
      match iter retrievalResults with
      | inl e => inl e
      | inr results => comprehension context_text results
      end
  end.

(** The generation call of line 353 for the message text [text]: the
    payload of lines 343-349 with its single user message, the model
    identifier and the two content types. *)
Definition generation_call (text : string) : call :=
  Runtime_invoke_model
    {| anthropic_version := "bedrock-2023-05-31";
       max_tokens := 512;
       messages := [ {| role := "user";
                        content := [ {| block_type := "text"; block_text := text |} ] |} ];
       temperature := 0.5;
       top_p := 1 |}
    "anthropic.claude-3-sonnet-20240229-v1:0" "application/json" "application/json".

(** The text of lines 327-341 once [contexts] and [query] are written into
    it: each line of the source with its indentation (the two lines that
    end with a blank keep it), joined by line feeds. *)
Definition rendered_prompt (contexts query : string) : string :=
  newline
  +:+ "            Human: You are a financial advisor AI system, and provides answers to questions by using fact based and statistical information when possible. "
  +:+ newline
  +:+ "            Use the following pieces of information to provide a concise answer to the question enclosed in <question> tags. "
  +:+ newline
  +:+ "            If you don't know the answer, just say that you don't know, don't try to make up an answer."
  +:+ newline
  +:+ "            <context>" +:+ newline
  +:+ "            " +:+ contexts +:+ newline
  +:+ "            </context>" +:+ newline
  +:+ newline
  +:+ "            <question>" +:+ newline
  +:+ "            " +:+ query +:+ newline
  +:+ "            </question>" +:+ newline
  +:+ newline
  +:+ "            The response should be specific and use statistics or numbers when possible."
  +:+ newline
  +:+ newline
  +:+ "            Assistant:".





(** *** Responses *)

(** The answer of a [cleanup] that ran through. *)
Definition cleanup_ok : response :=
  {| body_of := jsonify [ ("message", VStr "Resources cleaned up successfully") ];
     status := 200 |}.

(** The JSON error shape of the handlers. *)
Definition error_response (msg : string) (code : Z) : response :=
  {| body_of := jsonify [ ("error", VStr msg) ]; status := code |}.

(** *** Upload *)

(** The remote copy [upload_file] attempts for [file]. *)
Definition upload_call (secure_filename : string -> string) (bucket : string)
    (file : FileStorage) : call :=
  S3_upload_file (local_path secure_filename file) bucket (secure_filename (filename file)).

(** The answer to a successful upload. *)
Definition uploaded_response (name : string) (ingestion_job_id : value) : response :=
  {| body_of := jsonify [ ("message", VStr "File uploaded successfully");
                          ("filename", VStr name);
                          ("ingestion_job_id", ingestion_job_id) ];
     status := 200 |}.

(** The run appends events that satisfy [Q] and leaves the upload folder and
    [kb_instance] alone. *)
Definition quietly (Q : event -> Prop) : relation state := fun st st' =>
  appends Q st st' /\ disk st' = disk st.

(** The calls among the events, in order. *)
Definition calls (evs : list event) : list call :=
  omap (fun ev => match ev with Call c => Some c | Log _ _ => None end) evs.

Definition any_call (c : call) : Prop := True.

(** *** Provisioning and teardown *)

(** The buckets of the S3 data sources, in order. *)
Fixpoint s3_buckets (sources : list data_source) : list string :=
  match sources with
  | [] => []
  | source :: rest =>
      if is_S3 source then bucket_name source :: s3_buckets rest else s3_buckets rest
  end.

(** An event of provisioning: a log line or a creating call. *)
Definition provisioning_event (ev : event) : Prop :=
  match ev with
  | Log _ _ => True
  | Call c => provisioning_call c
  end.

(** The data source [_add_s3_data_source] creates for a bucket. *)
Definition data_source_call (self : BedrockKnowledgeBase) (id : value)
    (bucket : string) : call :=
  Agent_create_data_source id ("s3-source-" +:+ bucket) ("arn:aws:s3:::" +:+ bucket)
    (chunking_strategy self).

(** The calls of a provisioning that goes through. *)
Definition provisioning_calls (region : value) (data_bucket_name : string)
    (self : BedrockKnowledgeBase) (roleArn policyArn id : value) : list call :=
  map S3_create_bucket (s3_buckets (data_sources self))
  ++ [ Iam_create_role ("BedrockKBRole-" +:+ suffix self);
       Iam_create_policy ("BedrockKBPolicy-" +:+ suffix self)
         [ "arn:aws:s3:::" +:+ data_bucket_name;
           "arn:aws:s3:::" +:+ data_bucket_name +:+ "/*" ];
       Iam_attach_role_policy ("BedrockKBRole-" +:+ suffix self) policyArn;
       Agent_create_knowledge_base (kb_name self) (kb_description self) roleArn
         ("arn:aws:bedrock:" +:+ str region
            +:+ "::foundation-model/amazon.titan-embed-text-v1") ]
  ++ map (data_source_call self id) (s3_buckets (data_sources self)).

(** *** Status *)

(** The entry the status route builds for a job summary. *)
Definition job_entry_of (job entry : value) : Prop :=
  exists id job_status,
    getitem job "ingestionJobId" = inr id /\ getitem job "status" = inr job_status
    /\ entry = VDict [ ("id", id); ("status", job_status) ].

(** ** Scenarios

    Environments and states on which the statements are exercised. *)

Definition dict1 (outer inner : string) (v : value) : value :=
  VDict [ (outer, VDict [ (inner, v) ]) ].

(** One passage comes back for every query. *)
Definition retrieval_response : value :=
  VDict [ ("retrievalResults",
           VList [ dict1 "content" "text" (VStr "Q1 revenue was 5 million") ]) ].

(** Every service answers with a well-formed response. *)
Definition services_ok : world := fun _ c =>
  match c with
  | Iam_create_role _ => inr (dict1 "Role" "Arn" (VStr "arn:aws:iam::1:role/kb"))
  | Iam_create_policy _ _ => inr (dict1 "Policy" "Arn" (VStr "arn:aws:iam::1:policy/kb"))
  | Agent_create_knowledge_base _ _ _ _ =>
      inr (dict1 "knowledgeBase" "knowledgeBaseId" (VStr "KB1"))
  | Agent_create_data_source _ _ _ _ => inr (dict1 "dataSource" "dataSourceId" (VStr "DS1"))
  | Agent_start_ingestion_job _ => inr (dict1 "ingestionJob" "ingestionJobId" (VStr "JOB1"))
  | Agent_list_data_sources _ =>
      inr (VDict [ ("dataSourceSummaries",
                    VList [ VDict [ ("dataSourceId", VStr "DS1") ];
                            VDict [ ("dataSourceId", VStr "DS2") ] ]) ])
  | S3_list_objects_v2 _ =>
      inr (VDict [ ("Contents", VList [ VDict [ ("Key", VStr "report.pdf") ] ]) ])
  | Runtime_retrieve _ _ _ _ => inr retrieval_response
  | Runtime_invoke_model _ _ _ _ => inr (VDict [ ("body", VStr "raw") ])
  | _ => inr VNone
  end.

(** The bucket already exists; everything else succeeds. *)
Definition services_bucket_taken : world := fun h c =>
  match c with
  | S3_create_bucket _ => inl (Exn "ClientError" "BucketAlreadyOwnedByYou")
  | _ => services_ok h c
  end.

(** The knowledge base cannot be created; everything else succeeds. *)
Definition services_kb_denied : world := fun h c =>
  match c with
  | Agent_create_knowledge_base _ _ _ _ => inl (Exn "ClientError" "AccessDeniedException")
  | _ => services_ok h c
  end.

(** The remote copy fails. *)
Definition services_s3_down : world := fun h c =>
  match c with
  | S3_upload_file _ _ _ => inl (Exn "S3UploadFailedError" "Failed to upload")
  | _ => services_ok h c
  end.

(** The generation call as the program of the file makes it: [invoke_model]
    is looked up on the client of line 34, the one for the service
    bedrock-agent-runtime, which has no such operation, and the lookup
    raises.  Everything else answers. *)
Definition services_deployed : world := fun h c =>
  match c with
  | Runtime_invoke_model _ _ _ _ =>
      inl (Exn "AttributeError"
             "'AgentsforBedrockRuntime' object has no attribute 'invoke_model'")
  | _ => services_ok h c
  end.

Definition is_kb_delete (ev : event) : bool :=
  match ev with
  | Call (Agent_delete_knowledge_base _) => true
  | _ => false
  end.

(** Once the knowledge base has been deleted, listing its data sources
    answers that it is not found. *)
Definition services_once : world := fun h c =>
  match c with
  | Agent_list_data_sources _ =>
      if existsb is_kb_delete h
      then inl (Exn "ResourceNotFoundException" "Knowledge base KB1 is not found")
      else services_ok h c
  | _ => services_ok h c
  end.

(** [json.loads] of the model's body in the scenarios *)
Definition loads_answer (_ : string) : result value :=
  inr (VDict [ ("content",
                VList [ VDict [ ("type", VStr "text");
                                ("text", VStr "Revenue in the first quarter was 5 million.") ] ]) ]).

(** No scenario holds a replacement field in a query or a passage: the
    formatter of fields is never consulted. *)
Definition no_fields (_ : string) (_ : list value) : result string :=
  inl (ValueError "replacement field").

(** [secure_filename] on a name that is already safe *)
Definition secure_plain (name : string) : string := name.

Definition kb_fresh : BedrockKnowledgeBase :=
  {| kb_name := "bedrock-flask-kb-1"; kb_description := "Knowledge base for PDF documents";
     data_sources := [ {| source_type := "S3"; bucket_name := "bedrock-kb-data-1" |} ];
     chunking_strategy := "FIXED_SIZE"; suffix := "1"; kb_id := VNone |}.

Definition kb_ready : BedrockKnowledgeBase := set_kb_id kb_fresh (VStr "KB1").

Definition st_start : state := {| trace := []; disk := ∅; kb_instance := None |}.

Definition st_ready : state := {| trace := []; disk := ∅; kb_instance := Some kb_ready |}.

Definition post_file (name : string) : request :=
  {| method := POST; files := [ ("file", {| filename := name; stream := "%PDF" |}) ];
     form := [] |}.

Definition post_query (q : string) : request :=
  {| method := POST; files := []; form := [ ("query", q) ] |}.

(** The state a first [cleanup] leaves behind. *)
Definition st_cleaned : state := (cleanup services_once st_ready).2.

Definition report_pdf : FileStorage := {| filename := "report.pdf"; stream := "%PDF" |}.

(** *** More scenarios *)

(** The local save fails. *)
Definition services_disk_full : world := fun h c =>
  match c with
  | File_save _ => inl (Exn "OSError" "[Errno 28] No space left on device")
  | _ => services_ok h c
  end.

(** The ingestion cannot be started. *)
Definition services_ingestion_down : world := fun h c =>
  match c with
  | Agent_start_ingestion_job _ => inl (Exn "ClientError" "ThrottlingException")
  | _ => services_ok h c
  end.

(** Retrieval is refused. *)
Definition services_retrieval_down : world := fun h c =>
  match c with
  | Runtime_retrieve _ _ _ _ => inl (Exn "ClientError" "ValidationException")
  | _ => services_ok h c
  end.

(** The bucket holds no object. *)
Definition services_empty_bucket : world := fun h c =>
  match c with
  | S3_list_objects_v2 _ => inr (VDict [ ("KeyCount", VInt 0) ])
  | _ => services_ok h c
  end.

Definition pdf_source : data_source :=
  {| source_type := "S3"; bucket_name := "bedrock-kb-data-1" |}.

(** The state a successful startup leaves behind. *)
Definition st_started : state :=
  (initialize_kb services_ok (VStr "us-east-1") "1234567" "42" st_start).2.

(** The status reads answer: the knowledge base is active, one job is done. *)
Definition status_ok : Status.world := fun _ c =>
  match c with
  | Status.Agent_get_knowledge_base _ =>
      inr (dict1 "knowledgeBase" "status" (VStr "ACTIVE"))
  | Status.Agent_list_ingestion_jobs _ =>
      inr (VDict [ ("ingestionJobSummaries",
                    VList [ VDict [ ("ingestionJobId", VStr "JOB1");
                                    ("status", VStr "COMPLETE") ] ]) ])
  end.

(** The knowledge base is gone. *)
Definition status_gone : Status.world := fun _ _ =>
  inl (Exn "ResourceNotFoundException" "Knowledge base KB1 is not found").

(** The listing carries no summaries. *)
Definition status_no_jobs : Status.world := fun h c =>
  match c with
  | Status.Agent_list_ingestion_jobs _ => inr (VDict [ ("nextToken", VNone) ])
  | _ => status_ok h c
  end.

(** * Properties *)

(** ** Python strings *)

Lemma append_cons c a b : String c a +:+ b = String c (a +:+ b).
Proof. reflexivity. Qed.



























(** ** [allowed_file] *)

Lemma rsplit1_no_sep sep s : str_contains sep s = false -> rsplit1 sep s = [s].
Proof.
  induction s as [|c s IH]; [reflexivity|].
  cbn [str_contains rsplit1]. intros [Hc Hs]%orb_false_iff.
  rewrite IH, Hc by assumption. reflexivity.
Qed.

Lemma rsplit1_sep sep s :
  str_contains sep s = true ->
  exists a b, rsplit1 sep s = [a; b] /\ s = a +:+ String sep b
              /\ str_contains sep b = false.
Proof.
  induction s as [|c s IH]; [discriminate|].
  cbn [str_contains rsplit1]. intros H.
  destruct (str_contains sep s) eqn:Hs.
  - destruct (IH eq_refl) as (a & b & -> & -> & Hb).
    exists (String c a), b. done.
  - rewrite orb_false_r in H. rewrite (rsplit1_no_sep _ _ Hs), H.
    apply Ascii.eqb_eq in H as ->.
    exists EmptyString, s. done.
Qed.

Lemma lower_char_dot c : Ascii.eqb (lower_char c) "."%char = Ascii.eqb c "."%char.
Proof. destruct c as [[] [] [] [] [] [] [] []]; reflexivity. Qed.

Lemma str_contains_lower_dot s :
  str_contains "."%char (lower s) = str_contains "."%char s.
Proof.
  induction s as [|c s IH]; [reflexivity|].
  cbn [lower str_contains]. rewrite IH, lower_char_dot. reflexivity.
Qed.

Lemma ends_with_pdf_dot s :
  ends_with ".pdf" s = true -> str_contains "."%char s = true.
Proof.
  induction s as [|c s IH]; [discriminate|].
  cbn [ends_with str_contains]. intros [H | H]%orb_true_iff.
  - apply String.eqb_eq in H. injection H as -> _. reflexivity.
  - rewrite IH by assumption. apply orb_true_r.
Qed.

Lemma in_allowed ext : bool_decide (ext ∈ ALLOWED_EXTENSIONS) = String.eqb ext "pdf".
Proof.
  unfold ALLOWED_EXTENSIONS.
  destruct (String.eqb_spec ext "pdf") as [-> | Hne].
  - apply bool_decide_eq_true. by apply elem_of_singleton.
  - apply bool_decide_eq_false. by intros ?%elem_of_singleton.
Qed.

(** [allowed_file] never raises, and accepts exactly the names that end in
    [.pdf] once lowercased. *)
Lemma allowed_file_spec filename :
  allowed_file filename = inr (has_pdf_extension filename).
Proof.
  unfold allowed_file, has_pdf_extension.
  induction filename as [|c s IH]; [reflexivity|].
  cbn [str_contains rsplit1 lower ends_with].
  destruct (str_contains "."%char s) eqn:Hs.
  - rewrite orb_true_r.
    destruct (rsplit1_sep _ _ Hs) as (a & b & Hab & _ & _).
    rewrite Hab in IH |- *. cbn [lookup list_lookup] in *.
    rewrite IH. f_equal.
    destruct (String.eqb_spec (String (lower_char c) (lower s)) ".pdf") as [E|_];
      [|reflexivity].
    injection E as _ E.
    assert (str_contains "."%char (lower s) = true) as H
      by (by rewrite str_contains_lower_dot).
    rewrite E in H. discriminate H.
  - rewrite orb_false_r, (rsplit1_no_sep _ _ Hs).
    assert (ends_with ".pdf" (lower s) = false) as ->.
    { destruct (ends_with ".pdf" (lower s)) eqn:E; [|reflexivity].
      apply ends_with_pdf_dot in E. rewrite str_contains_lower_dot in E. congruence. }
    rewrite orb_false_r.
    destruct (Ascii.eqb c "."%char) eqn:Hc.
    + apply Ascii.eqb_eq in Hc as ->. cbn [lookup list_lookup].
      rewrite in_allowed. reflexivity.
    + f_equal. symmetry. apply String.eqb_neq. intros E. injection E as E _.
      rewrite <- lower_char_dot in Hc. rewrite E in Hc. discriminate Hc.
Qed.

(** ** Running computations *)

Lemma bind_run {A B} (m : M A) (k : A -> M B) st :
  (m ≫= k) st = match m st with
                | (inl e, st') => (inl e, st')
                | (inr x, st') => k x st'
                end.
Proof. reflexivity. Qed.

Lemma try_except_run {A} (m : M A) h st :
  try_except m h st = match m st with
                      | (inl e, st') => h e st'
                      | (inr x, st') => (inr x, st')
                      end.
Proof. reflexivity. Qed.

Lemma bind_inr {A B} (m : M A) (k : A -> M B) st y st' :
  (m ≫= k) st = (inr y, st') ->
  exists x st1, m st = (inr x, st1) /\ k x st1 = (inr y, st').
Proof.
  rewrite bind_run. destruct (m st) as [[e | x] st1]; [discriminate|]. eauto.
Qed.

(** Case analysis on the outcome of the computation that runs first. *)
Ltac case_run_in H :=
  match type of H with
  | context [match ?c with (_, _) => _ end] =>
      let E := fresh "Hrun" in destruct c as [[?e | ?x] ?st] eqn:E
  end.

Ltac case_run :=
  match goal with
  | |- context [match ?c with (_, _) => _ end] =>
      let E := fresh "Hrun" in destruct c as [[?e | ?x] ?st] eqn:E
  end.

Lemma invoke_run W c st :
  invoke W c st = (W (trace st) c, with_trace st (trace st ++ [Call c])).
Proof. reflexivity. Qed.

Lemma invoke_inr W c st v st' :
  invoke W c st = (inr v, st') ->
  W (trace st) c = inr v /\ st' = with_trace st (trace st ++ [Call c]).
Proof. rewrite invoke_run. by intros [= -> <-]. Qed.

Lemma lift_inr {A} (r : result A) st x st' :
  lift r st = (inr x, st') -> r = inr x /\ st' = st.
Proof. by intros [= -> <-]. Qed.

Lemma reraise_inr {A} (m : M A) lvl (msg : exn -> string) st x st' :
  try_except m (fun e => logger lvl (msg e) ;; raise e) st = (inr x, st') ->
  m st = (inr x, st').
Proof.
  rewrite try_except_run. destruct (m st) as [[e | y] st1]; [discriminate | done].
Qed.

Lemma ret_run {A} (x : A) st : (mret x : M A) st = (inr x, st).
Proof. reflexivity. Qed.

Lemma lift_run {A} (r : result A) st : lift r st = (r, st).
Proof. reflexivity. Qed.

Lemma logger_run lvl msg st :
  logger lvl msg st = (inr tt, with_trace st (trace st ++ [Log lvl msg])).
Proof. reflexivity. Qed.

Lemma raise_run {A} e st : @raise A e st = (inl e, st).
Proof. reflexivity. Qed.

Lemma respond_run b code st :
  respond b code st = (inr {| body_of := b; status := code |}, st).
Proof. reflexivity. Qed.

Lemma trace_with_trace st t : trace (with_trace st t) = t.
Proof. reflexivity. Qed.

Lemma with_trace_twice st t t' : with_trace (with_trace st t) t' = with_trace st t'.
Proof. reflexivity. Qed.

(** ** Invariants of runs *)

#[global] Instance appends_preorder Q : PreOrder (appends Q).
Proof.
  split.
  - intros st. split; [reflexivity|]. exists []. by rewrite app_nil_r.
  - intros a b c [Hk1 (e1 & H1 & Q1)] [Hk2 (e2 & H2 & Q2)]. split; [congruence|].
    exists (e1 ++ e2). rewrite H2, H1, app_assoc. split; [reflexivity|].
    by apply Forall_app.
Qed.

Section Steps.
Context (R : relation state) `{!PreOrder R}.

Lemma steps_ret {A} (x : A) : steps R (mret x).
Proof. intros st. reflexivity. Qed.

Lemma steps_lift {A} (r : result A) : steps R (lift r).
Proof. intros st. reflexivity. Qed.

Lemma steps_raise {A} e : steps R (@raise A e).
Proof. intros st. reflexivity. Qed.

Lemma steps_respond b code : steps R (respond b code).
Proof. intros st. reflexivity. Qed.

Lemma steps_get_kb_instance : steps R get_kb_instance.
Proof. intros st. unfold get_kb_instance. destruct (kb_instance st); reflexivity. Qed.

Lemma steps_bind {A B} (m : M A) (k : A -> M B) :
  steps R m -> (forall x, steps R (k x)) -> steps R (m ≫= k).
Proof.
  intros Hm Hk st. rewrite bind_run. specialize (Hm st).
  destruct (m st) as [[e | x] st1]; [exact Hm|].
  etransitivity; [exact Hm | apply Hk].
Qed.

Lemma steps_try_except {A} (m : M A) h :
  steps R m -> (forall e, steps R (h e)) -> steps R (try_except m h).
Proof.
  intros Hm Hh st. rewrite try_except_run. specialize (Hm st).
  destruct (m st) as [[e | x] st1]; [|exact Hm].
  etransitivity; [exact Hm | apply Hh].
Qed.

Lemma steps_try_finally {A} (m : M A) f :
  steps R m -> steps R f -> steps R (try_finally m f).
Proof.
  intros Hm Hf st. unfold try_finally. specialize (Hm st).
  destruct (m st) as [r st1]. specialize (Hf st1).
  destruct (f st1) as [[e | []] st2]; etransitivity; eassumption.
Qed.

Lemma steps_for_each {A} (l : list A) body :
  (forall x, steps R (body x)) -> steps R (for_each l body).
Proof.
  intros Hb. induction l as [|x l IH]; [apply steps_ret|].
  apply steps_bind; [apply Hb | intros _; exact IH].
Qed.

End Steps.

Section Appends.
Context (W : world) (Q : event -> Prop).

Lemma steps_invoke c : Q (Call c) -> steps (appends Q) (invoke W c).
Proof.
  intros HQ st. split; [reflexivity|]. exists [Call c]. split; [reflexivity|].
  by apply Forall_singleton.
Qed.

Lemma steps_logger lvl msg : Q (Log lvl msg) -> steps (appends Q) (logger lvl msg).
Proof.
  intros HQ st. split; [reflexivity|]. exists [Log lvl msg]. split; [reflexivity|].
  by apply Forall_singleton.
Qed.

End Appends.

(** Decompose a computation along its structure. *)
Ltac steps_structure :=
  repeat match goal with
    | |- PreOrder _ => apply _
    | |- forall _, steps _ _ => intros ?
    | |- steps _ (_ ≫= _) => apply steps_bind
    | |- steps _ (try_except _ _) => apply steps_try_except
    | |- steps _ (try_finally _ _) => apply steps_try_finally
    | |- steps _ (for_each _ _) => apply steps_for_each
    | |- steps _ (mret _) => apply steps_ret
    | |- steps _ (lift _) => apply steps_lift
    | |- steps _ (raise _) => apply steps_raise
    | |- steps _ (respond _ _) => apply steps_respond
    | |- steps _ get_kb_instance => apply steps_get_kb_instance
    | |- steps _ (logger _ _) => apply steps_logger
    | |- steps _ (invoke _ _) => apply steps_invoke
    | |- steps _ (if ?b then _ else _) => destruct b
    | |- steps _ (match ?o with Some _ => _ | None => _ end) => destruct o
    | |- steps _ _ => progress cbn beta
    end.

Section First.
Context (W : world) (ev : event) (Q : event -> Prop).

Lemma first_then_appends a b c :
  first_then ev Q a b -> appends Q b c -> first_then ev Q a c.
Proof.
  intros [Hk1 (e1 & H1 & Q1)] [Hk2 (e2 & H2 & Q2)]. split; [congruence|].
  exists (e1 ++ e2). rewrite H2, H1, <- app_assoc. split; [reflexivity|].
  by apply Forall_app.
Qed.

Lemma steps_first_bind {A B} (m : M A) (k : A -> M B) :
  steps (first_then ev Q) m -> (forall x, steps (appends Q) (k x)) ->
  steps (first_then ev Q) (m ≫= k).
Proof.
  intros Hm Hk st. rewrite bind_run. specialize (Hm st).
  destruct (m st) as [[e | x] st1]; [exact Hm|].
  eapply first_then_appends; [exact Hm | apply Hk].
Qed.

Lemma steps_first_try {A} (m : M A) h :
  steps (first_then ev Q) m -> (forall e, steps (appends Q) (h e)) ->
  steps (first_then ev Q) (try_except m h).
Proof.
  intros Hm Hh st. rewrite try_except_run. specialize (Hm st).
  destruct (m st) as [[e | x] st1]; [|exact Hm].
  eapply first_then_appends; [exact Hm | apply Hh].
Qed.

End First.

Lemma steps_first_invoke W Q c : steps (first_then (Call c) Q) (invoke W c).
Proof. intros st. split; [reflexivity|]. exists []. by split. Qed.

(** ** The upload handler *)

Section Upload.

Context (W : world) (secure_filename : string -> string) (data_bucket_name : string).

Lemma upload_to_s3_unlinks file_path filename st :
  file_path ∉ disk (upload_to_s3 W data_bucket_name file_path filename st).2.
Proof.
  unfold upload_to_s3, try_finally.
  destruct (try_except _ _ st) as [r st1].
  rewrite bind_run. unfold path_exists, os_remove.
  destruct (bool_decide (file_path ∈ disk st1)) eqn:E; cbn.
  - rewrite E. cbn. intros [_ H]%elem_of_difference.
    apply H. by apply elem_of_singleton.
  - by apply bool_decide_eq_false in E.
Qed.

Lemma upload_to_s3_returns file_path filename st :
  exists r, (upload_to_s3 W data_bucket_name file_path filename st).1 = inr r
            /\ (status r = 200 \/ status r = 500).
Proof.
  unfold upload_to_s3, try_finally.
  destruct (try_except _ _ st) as [r st1] eqn:Hr.
  assert (exists x, r = inr x /\ (status x = 200 \/ status x = 500)) as (x & -> & Hx).
  { rewrite try_except_run in Hr. case_run_in Hr.
    - injection Hr as <- _. eexists; split; [reflexivity|]. by right.
    - injection Hr as <- _. eexists; split; [reflexivity|]. left.
      apply bind_inr in Hrun as (? & ? & _ & Hrun).
      apply bind_inr in Hrun as (? & ? & _ & Hrun).
      apply bind_inr in Hrun as (? & ? & _ & Hrun).
      by injection Hrun as <- _. }
  rewrite bind_run. unfold path_exists, os_remove.
  destruct (bool_decide (file_path ∈ disk st1)) eqn:E; cbn.
  - rewrite E. cbn. eauto.
  - eauto.
Qed.

(** What [upload_file] does once the file part is there and named. *)
Lemma upload_file_named req file st :
  method req = POST -> assoc "file" (files req) = Some file ->
  filename file <> "" ->
  upload_file W secure_filename data_bucket_name req st =
    if has_pdf_extension (filename file) then
      let name := secure_filename (filename file) in
      (save W file (path_join UPLOAD_FOLDER name) ;;
       upload_to_s3 W data_bucket_name (path_join UPLOAD_FOLDER name) name) st
    else (inr (error_response "Invalid file type" 400), st).
Proof.
  intros Hm Hf Hn. unfold upload_file. rewrite Hm, Hf.
  apply String.eqb_neq in Hn. unfold file_truthy. rewrite Hn. cbn [negb].
  rewrite allowed_file_spec, bind_run. unfold lift.
  destruct (has_pdf_extension (filename file)); reflexivity.
Qed.

(** C3: for every upload request whose file passes the extension check and
    is saved locally, the handler returns (with status 200 when the remote
    copy and the ingestion trigger succeeded, with status 500 when either
    raised) and the local temporary file does not exist afterwards. *)
Theorem upload_removes_local_file req file st saved :
  method req = POST -> assoc "file" (files req) = Some file ->
  allowed_file (filename file) = inr true ->
  W (trace st) (File_save (local_path secure_filename file)) = inr saved ->
  exists r st',
    upload_file W secure_filename data_bucket_name req st = (inr r, st')
    /\ (status r = 200 \/ status r = 500)
    /\ local_path secure_filename file ∉ disk st'.
Proof.
  intros Hm Hf Hok Hsave.
  set (file_path := local_path secure_filename file) in *.
  assert (filename file <> "") as Hn by (intros E; by rewrite E in Hok).
  rewrite allowed_file_spec in Hok. injection Hok as Hok.
  rewrite (upload_file_named _ _ _ Hm Hf Hn), Hok. cbn zeta.
  change (path_join UPLOAD_FOLDER (secure_filename (filename file))) with file_path.
  rewrite bind_run. unfold save at 1. rewrite Hsave.
  match goal with |- context [upload_to_s3 _ _ _ ?n ?s] =>
    pose proof (upload_to_s3_unlinks file_path n s) as Hdisk;
    destruct (upload_to_s3_returns file_path n s) as (r & Hr & Hst);
    destruct (upload_to_s3 W data_bucket_name file_path n s) as [r' st'] end.
  cbn in Hr, Hdisk. subst r'. eauto.
Qed.

(** C5: for every POST /upload request carrying a file whose name lacks the
    allowed extension (it does not end in [.pdf] once lowercased), the
    handler returns status 400 with a JSON body of the shape
    [{error: message}]; nothing else happens. *)
Theorem upload_rejects_disallowed_extension req file st :
  method req = POST -> assoc "file" (files req) = Some file ->
  has_pdf_extension (filename file) = false ->
  exists msg,
    upload_file W secure_filename data_bucket_name req st
    = (inr {| body_of := Json (VDict [ ("error", VStr msg) ]); status := 400 |}, st).
Proof.
  intros Hm Hf Hext.
  destruct (String.eqb_spec (filename file) "") as [Hn | Hn].
  - exists "No selected file". unfold upload_file.
    rewrite Hm, Hf, Hn. reflexivity.
  - exists "Invalid file type".
    rewrite (upload_file_named _ _ _ Hm Hf Hn), Hext. reflexivity.
Qed.

(** C9: an upload request rejected with a client error has no side effect.
    Each of the three rejections (no file part, empty file name, disallowed
    extension) answers 400 and leaves the state as it was: no event is
    added to the trace (no local save, no object uploaded, no ingestion job
    started) and the upload folder is unchanged.  Conversely every answer
    with status 400 leaves the state unchanged. *)
Theorem upload_client_error_no_effect req st :
  method req = POST ->
  (assoc "file" (files req) = None ->
     upload_file W secure_filename data_bucket_name req st
     = (inr (error_response "No file part" 400), st))
  /\ (forall file, assoc "file" (files req) = Some file -> filename file = "" ->
     upload_file W secure_filename data_bucket_name req st
     = (inr (error_response "No selected file" 400), st))
  /\ (forall file, assoc "file" (files req) = Some file -> filename file <> "" ->
     allowed_file (filename file) = inr false ->
     upload_file W secure_filename data_bucket_name req st
     = (inr (error_response "Invalid file type" 400), st))
  /\ (forall r st',
     upload_file W secure_filename data_bucket_name req st = (inr r, st') ->
     status r = 400 -> st' = st).
Proof.
  intros Hm. repeat split.
  - intros Hf. unfold upload_file. rewrite Hm, Hf. reflexivity.
  - intros file Hf Hn. unfold upload_file. rewrite Hm, Hf, Hn. reflexivity.
  - intros file Hf Hn Hno. rewrite allowed_file_spec in Hno. injection Hno as Hno.
    rewrite (upload_file_named _ _ _ Hm Hf Hn), Hno. reflexivity.
  - intros r st' Hrun H400.
    destruct (assoc "file" (files req)) as [file|] eqn:Hf.
    2:{ unfold upload_file in Hrun. rewrite Hm, Hf in Hrun. by injection Hrun. }
    destruct (String.eqb_spec (filename file) "") as [Hn | Hn].
    { unfold upload_file in Hrun. rewrite Hm, Hf, Hn in Hrun. by injection Hrun. }
    rewrite (upload_file_named _ _ _ Hm Hf Hn) in Hrun.
    destruct (has_pdf_extension (filename file)); [|by injection Hrun].
    exfalso. cbn zeta in Hrun. apply bind_inr in Hrun as (? & st1 & _ & Hrun).
    match type of Hrun with upload_to_s3 _ _ ?p ?n ?s = _ =>
      destruct (upload_to_s3_returns p n s) as (r' & Hr & Hst) end.
    rewrite Hrun in Hr. cbn in Hr. injection Hr as <-. lia.
Qed.

End Upload.

(** ** The query handler on empty input *)

Section Query.
Context (W : world) (json_loads : string -> result value)
        (format_fields : string -> list value -> result string).

(** C6: for every POST /query request whose [query] field is absent or
    empty, the handler returns status 400 with a JSON error body, and the
    state is unchanged: no retrieval or generation call is made. *)
Theorem query_rejects_empty req st :
  method req = POST ->
  assoc "query" (form req) = None \/ assoc "query" (form req) = Some "" ->
  query_kb W json_loads format_fields req st = (inr (error_response "No query provided" 400), st).
Proof.
  intros Hm Hq. unfold query_kb. rewrite Hm.
  destruct Hq as [-> | ->]; reflexivity.
Qed.

End Query.

(** ** The cleanup route *)

Section Cleanup.
Context (W : world).

Lemma cleanup_appends : steps (appends any_event) (cleanup W).
Proof.
  unfold cleanup, delete_kb, delete_one_data_source, purge_bucket.
  steps_structure; exact I.
Qed.

Lemma cleanup_returns st :
  exists r st',
    cleanup W st = (inr r, st')
    /\ (r = cleanup_ok \/ exists e, r = error_response (exn_str e) 500).
Proof.
  unfold cleanup. rewrite try_except_run. case_run.
  - do 2 eexists. split; [reflexivity|]. right. by exists e.
  - apply bind_inr in Hrun as (? & ? & _ & Hrun).
    apply bind_inr in Hrun as (? & ? & _ & Hrun).
    injection Hrun as <- <-. eauto.
Qed.

Lemma cleanup_not_found st kb e :
  kb_instance st = Some kb -> truthy (kb_id kb) = true ->
  W (trace st) (Agent_list_data_sources (kb_id kb)) = inl e ->
  (cleanup W st).1 = inr (error_response (exn_str e) 500).
Proof.
  intros Hkb Hid Hlist.
  unfold cleanup. rewrite try_except_run, bind_run.
  unfold get_kb_instance. rewrite Hkb. rewrite bind_run.
  unfold delete_kb. rewrite try_except_run, Hid, bind_run, invoke_run.
  rewrite Hlist. reflexivity.
Qed.

Lemma cleanup_nothing_to_delete st kb :
  kb_instance st = Some kb -> truthy (kb_id kb) = false ->
  cleanup W st = (inr cleanup_ok, st).
Proof.
  intros Hkb Hid.
  unfold cleanup. rewrite try_except_run, bind_run.
  unfold get_kb_instance. rewrite Hkb. rewrite bind_run.
  unfold delete_kb. rewrite try_except_run, Hid. reflexivity.
Qed.

Lemma cleanup_ok_bound st st1 :
  cleanup W st = (inr cleanup_ok, st1) -> exists kb, kb_instance st = Some kb.
Proof.
  destruct (kb_instance st) as [kb|] eqn:Hkb; [eauto|].
  unfold cleanup. rewrite try_except_run, bind_run.
  unfold get_kb_instance. rewrite Hkb. discriminate.
Qed.

(** C7: a second [cleanup] after a successful one returns a response and
    never raises.  The name [kb_instance] is still bound; when the object
    holds no identifier the call does nothing and answers as before, and
    when listing the data sources raises (the knowledge base is gone) the
    answer is the JSON error with status 500 that carries that message. *)
Theorem cleanup_twice_never_raises st st1 :
  cleanup W st = (inr cleanup_ok, st1) ->
  exists kb r2 st2,
    kb_instance st1 = Some kb
    /\ cleanup W st1 = (inr r2, st2)
    /\ (r2 = cleanup_ok \/ exists e, r2 = error_response (exn_str e) 500)
    /\ (truthy (kb_id kb) = false -> r2 = cleanup_ok /\ st2 = st1)
    /\ (forall e,
          truthy (kb_id kb) = true ->
          W (trace st1) (Agent_list_data_sources (kb_id kb)) = inl e ->
          r2 = error_response (exn_str e) 500).
Proof.
  intros Hfirst.
  destruct (cleanup_ok_bound _ _ Hfirst) as [kb Hkb].
  destruct (cleanup_appends st) as [Hsame _]. rewrite Hfirst in Hsame.
  cbn [snd] in Hsame. rewrite Hkb in Hsame.
  destruct (cleanup_returns st1) as (r2 & st2 & Hrun & Hr2).
  exists kb, r2, st2.
  split; [exact Hsame|]. split; [exact Hrun|]. split; [exact Hr2|]. split.
  - intros Hid. rewrite (cleanup_nothing_to_delete _ _ Hsame Hid) in Hrun.
    by injection Hrun as <- <-.
  - intros e Hid Hlist.
    pose proof (cleanup_not_found st1 kb e Hsame Hid Hlist) as H.
    rewrite Hrun in H. by injection H.
Qed.

End Cleanup.

(** ** Teardown: [delete_kb] *)

Section Delete.
Context (W : world).

Lemma delete_one_run self d st :
  delete_one_data_source W self d st =
    match getitem d "dataSourceId" with
    | inl e => (inl e, st)
    | inr id =>
        let c := Agent_delete_data_source (kb_id self) id in
        match W (trace st) c with
        | inl e => (inl e, with_trace st (trace st ++ [Call c]))
        | inr _ =>
            (inr tt, with_trace st
               (trace st ++ [Call c; Log INFO ("Deleted data source: " +:+ str id)]))
        end
    end.
Proof.
  unfold delete_one_data_source. rewrite bind_run. unfold lift.
  destruct (getitem d "dataSourceId") as [e | id]; [reflexivity|].
  rewrite bind_run. unfold invoke. cbn zeta.
  destruct (W (trace st) _) as [e | v]; [reflexivity|].
  rewrite !bind_run. unfold logger, with_trace. cbn. by rewrite <- app_assoc.
Qed.

Lemma delete_loop_trace self dss st :
  exists evs,
    trace (for_each dss (delete_one_data_source W self) st).2 = trace st ++ evs
    /\ Forall binding_event evs
    /\ ((for_each dss (delete_one_data_source W self) st).1 = inr tt ->
        forall ds, ds ∈ dss ->
        exists id, getitem ds "dataSourceId" = inr id
                   /\ Call (Agent_delete_data_source (kb_id self) id) ∈ evs).
Proof.
  revert st. induction dss as [|d dss IH]; intros st.
  - exists []. rewrite app_nil_r. repeat split; [constructor|].
    intros _ ds Hds. by apply elem_of_nil in Hds.
  - cbn [for_each]. rewrite bind_run, delete_one_run.
    destruct (getitem d "dataSourceId") as [e | id] eqn:Hid.
    { exists []. rewrite app_nil_r. repeat split; [constructor | discriminate]. }
    cbn zeta. destruct (W (trace st) _) as [e | v].
    { exists [Call (Agent_delete_data_source (kb_id self) id)].
      repeat split; [by repeat constructor | discriminate]. }
    match goal with |- context [for_each dss _ ?s] =>
      destruct (IH s) as (evs & Htr & Hev & Hall) end.
    exists (Call (Agent_delete_data_source (kb_id self) id)
            :: Log INFO ("Deleted data source: " +:+ str id) :: evs).
    split; [|split].
    + rewrite Htr. cbn. by rewrite <- !app_assoc.
    + by repeat constructor.
    + intros Hok ds [-> | Hds]%elem_of_cons.
      * exists id. split; [assumption | by left].
      * destruct (Hall Hok ds Hds) as (id' & ? & ?).
        exists id'. split; [assumption|]. by do 2 right.
Qed.

Lemma purge_loop_appends sources :
  steps (appends storage_event) (for_each sources (purge_bucket W)).
Proof. unfold purge_bucket. steps_structure; exact I. Qed.

Lemma deletion_shape_log self h evs lvl msg :
  deletion_shape W self h evs -> deletion_shape W self h (evs ++ [Log lvl msg]).
Proof.
  intros (A & B & -> & HA & [-> | (C & dss & -> & HC & Hl & Hall)]).
  - exists (A ++ [Log lvl msg]), []. rewrite !app_nil_r. split; [reflexivity|].
    split; [|by left]. apply Forall_app. split; [assumption | by repeat constructor].
  - exists A, (Call (Agent_delete_knowledge_base (kb_id self)) :: C ++ [Log lvl msg]).
    split; [by rewrite <- app_assoc|]. split; [assumption|]. right.
    exists (C ++ [Log lvl msg]), dss. repeat split; try assumption.
    apply Forall_app. split; [assumption | by repeat constructor].
Qed.

Lemma delete_kb_shape self purge st :
  exists evs,
    trace (delete_kb W self purge st).2 = trace st ++ evs
    /\ deletion_shape W self (trace st) evs.
Proof.
  unfold delete_kb. rewrite try_except_run.
  (* the [try] block *)
  match goal with |- context [match ?body st with _ => _ end] =>
    assert (exists evs, trace (body st).2 = trace st ++ evs
                        /\ deletion_shape W self (trace st) evs) as (evs & Htr & Hshape);
    [| destruct (body st) as [[e | []] st'] ] end.
  - destruct (truthy (kb_id self)).
    2:{ exists []. rewrite app_nil_r. split; [reflexivity|].
        exists [], []. repeat split; [constructor | by left]. }
    pose (c_list := Call (Agent_list_data_sources (kb_id self))).
    assert (deletion_shape W self (trace st) [c_list]) as Hlist.
    { exists [c_list], []. repeat split; [by repeat constructor | by left]. }
    rewrite bind_run, invoke_run.
    destruct (W (trace st) (Agent_list_data_sources (kb_id self))) as [e | resp] eqn:HW;
      [by exists [c_list]|].
    rewrite bind_run. unfold lift at 1.
    destruct (get resp "dataSourceSummaries" (VList [])) as [e | summaries] eqn:Hget;
      [by exists [c_list]|].
    rewrite bind_run. unfold lift at 1.
    destruct (iter summaries) as [e | dss] eqn:Hiter; [by exists [c_list]|].
    assert (listed_data_sources W self (trace st) = inr dss) as Hlisted.
    { unfold listed_data_sources. by rewrite HW, Hget. }
    rewrite bind_run.
    match goal with |- context [for_each dss _ ?s] =>
      destruct (delete_loop_trace self dss s) as (A & HtrA & HA & Hall);
      destruct (for_each dss (delete_one_data_source W self) s) as [[e | []] st2] end.
    { exists (c_list :: A). cbn in HtrA |- *. rewrite HtrA, <- app_assoc.
      split; [reflexivity|].
      exists (c_list :: A), []. rewrite app_nil_r. repeat split; [|by left].
      by constructor. }
    cbn [fst snd] in HtrA, Hall. specialize (Hall eq_refl).
    pose (c_kb := Call (Agent_delete_knowledge_base (kb_id self))).
    assert (forall C, Forall storage_event C ->
              deletion_shape W self (trace st) ((c_list :: A) ++ c_kb :: C)) as Hkb.
    { intros C HC. exists (c_list :: A), (c_kb :: C). split; [reflexivity|].
      split; [by constructor|]. right. exists C, dss. repeat split; try assumption.
      intros ds Hds. destruct (Hall ds Hds) as (id & ? & ?).
      exists id. split; [assumption | by right]. }
    rewrite bind_run, invoke_run.
    destruct (W (trace st2) (Agent_delete_knowledge_base (kb_id self))) as [e | v].
    { exists ((c_list :: A) ++ [c_kb]). split; [|by apply Hkb].
      cbn. rewrite HtrA. cbn. by rewrite <- !app_assoc. }
    rewrite bind_run. unfold logger at 1.
    set (msg := "Deleted Knowledge Base: " +:+ str (kb_id self)).
    match goal with |- context [(if purge then ?m else _) ?s] =>
      assert (appends storage_event s ((if purge then m else mret tt) s).2)
        as [_ (C & HtrC & HC)] end.
    { destruct purge; [apply purge_loop_appends | reflexivity]. }
    exists ((c_list :: A) ++ c_kb :: Log INFO msg :: C). split.
    + rewrite HtrC. cbn. rewrite HtrA. cbn. by rewrite <- !app_assoc.
    + apply Hkb. by constructor.
  - cbn [fst snd] in Htr. rewrite bind_run. unfold logger at 1.
    exists (evs ++ [Log ERROR ("Error deleting resources: " +:+ exn_str e)]).
    split; [cbn; by rewrite Htr, <- app_assoc | by apply deletion_shape_log].
  - exists evs. split; assumption.
Qed.

(** A purge that returns has deleted the bucket. *)
Lemma purge_bucket_success source st st' :
  is_S3 source = true -> purge_bucket W source st = (inr tt, st') ->
  exists evs,
    trace st' = trace st ++ evs
    /\ Call (S3_delete_bucket (bucket_name source)) ∈ evs.
Proof.
  intros HS3 H. unfold purge_bucket in H. rewrite HS3 in H.
  apply bind_inr in H as (objects & st1 & [_ ->]%invoke_inr & H).
  apply bind_inr in H as (has_contents & st2 & [_ ->]%lift_inr & H).
  apply bind_inr in H as ([] & st3 & Hmid & H).
  match type of Hmid with ?m _ = _ =>
    assert (steps (appends storage_event) m) as Hsteps
      by (destruct has_contents; steps_structure; exact I)
  end.
  match type of Hmid with _ ?s = _ => specialize (Hsteps s) end.
  rewrite Hmid in Hsteps. destruct Hsteps as [_ (mid & Hmid_tr & _)].
  cbn [snd trace with_trace] in Hmid_tr.
  apply bind_inr in H as (deleted & st4 & [_ ->]%invoke_inr & H).
  rewrite logger_run in H. injection H as <-.
  exists (Call (S3_list_objects_v2 (bucket_name source)) :: mid
          ++ [Call (S3_delete_bucket (bucket_name source));
              Log INFO ("Deleted S3 bucket: " +:+ bucket_name source)]).
  split.
  - cbn [trace with_trace]. rewrite Hmid_tr, <- !app_assoc. reflexivity.
  - apply elem_of_cons. right. apply elem_of_app. right. by left.
Qed.

Lemma purge_loop_success sources st st' :
  for_each sources (purge_bucket W) st = (inr tt, st') ->
  exists evs,
    trace st' = trace st ++ evs
    /\ forall source, source ∈ sources -> is_S3 source = true ->
         Call (S3_delete_bucket (bucket_name source)) ∈ evs.
Proof.
  revert st. induction sources as [|s l IH]; intros st.
  - intros [= <-]. exists []. rewrite app_nil_r. split; [reflexivity|].
    intros source Hin. by apply elem_of_nil in Hin.
  - cbn [for_each]. intros H.
    apply bind_inr in H as ([] & st1 & Hs & H).
    destruct (IH _ H) as (evs & Htr & Hall).
    assert (exists evs1,
              trace st1 = trace st ++ evs1
              /\ (is_S3 s = true -> Call (S3_delete_bucket (bucket_name s)) ∈ evs1))
      as (evs1 & Htr1 & Hs1).
    { destruct (is_S3 s) eqn:HS3.
      - destruct (purge_bucket_success s st st1 HS3 Hs) as (evs1 & ? & ?).
        by exists evs1.
      - unfold purge_bucket in Hs. rewrite HS3 in Hs. injection Hs as <-.
        exists []. by rewrite app_nil_r. }
    exists (evs1 ++ evs). split; [by rewrite Htr, Htr1, <- app_assoc|].
    intros source [-> | Hin]%elem_of_cons HS3; apply elem_of_app.
    + left. by apply Hs1.
    + right. by apply Hall.
Qed.

(** A teardown that returns has deleted the knowledge base and, with the
    purge, the bucket of every S3 source. *)
Lemma delete_kb_success self st st' :
  truthy (kb_id self) = true -> delete_kb W self true st = (inr tt, st') ->
  exists evs,
    trace st' = trace st ++ evs
    /\ Call (Agent_delete_knowledge_base (kb_id self)) ∈ evs
    /\ forall source, source ∈ data_sources self -> is_S3 source = true ->
         Call (S3_delete_bucket (bucket_name source)) ∈ evs.
Proof.
  intros Hid H. unfold delete_kb in H. apply reraise_inr in H. rewrite Hid in H.
  apply bind_inr in H as (listing & st1 & [_ ->]%invoke_inr & H).
  apply bind_inr in H as (summaries & st2 & [_ ->]%lift_inr & H).
  apply bind_inr in H as (dss & st3 & [_ ->]%lift_inr & H).
  apply bind_inr in H as ([] & st4 & Hloop & H).
  match type of Hloop with _ ?s = _ =>
    destruct (delete_loop_trace self dss s) as (A & HtrA & _ & _)
  end.
  rewrite Hloop in HtrA. cbn [snd trace with_trace] in HtrA.
  apply bind_inr in H as (deleted & st5 & [_ ->]%invoke_inr & H).
  apply bind_inr in H as ([] & st6 & Hlog & H).
  rewrite logger_run in Hlog. injection Hlog as <-.
  apply purge_loop_success in H as (C & HtrC & Hall).
  cbn [trace with_trace] in HtrC.
  exists (Call (Agent_list_data_sources (kb_id self)) :: A
          ++ Call (Agent_delete_knowledge_base (kb_id self))
             :: Log INFO ("Deleted Knowledge Base: " +:+ str (kb_id self)) :: C).
  split; [|split].
  - rewrite HtrC, HtrA, <- !app_assoc. reflexivity.
  - apply elem_of_cons. right. apply elem_of_app. right. by left.
  - intros source Hin HS3. apply elem_of_cons. right. apply elem_of_app. right.
    do 2 right. by apply Hall.
Qed.

End Delete.

Section Ordering.
Context (W : world).

Lemma binding_phase A B i ev :
  Forall binding_event A -> (A ++ B) !! i = Some ev -> ~ binding_event ev ->
  (List.length A <= i)%nat /\ B !! (i - List.length A)%nat = Some ev.
Proof.
  intros HA [Hi | Hi]%lookup_app_Some Hev; [|exact Hi].
  exfalso. apply Hev. eapply Forall_lookup_1; eassumption.
Qed.

Lemma storage_phase c C n ev :
  Forall storage_event C -> (c :: C) !! n = Some ev -> ~ storage_event ev -> n = 0%nat.
Proof.
  intros HC Hn Hev. destruct n as [|n]; [reflexivity|].
  exfalso. apply Hev. eapply Forall_lookup_1; eassumption.
Qed.

(** C4: in every execution of [delete_kb] with [delete_s3_bucket = True],
    whatever the services answer, the calls it appends to the trace are
    ordered: every deletion of a data source comes before the deletion of
    the knowledge base, which comes before every call on the storage
    (listing, emptying, deleting a bucket).  When the knowledge base is
    deleted, each binding the service listed has been deleted before it; and
    no bucket is touched unless the knowledge base was deleted first.  The
    deletions are made: when [delete_kb] returns for an object that has an
    identifier, the trace holds the deletion of the knowledge base (hence,
    before it, that of every listed binding) and, after it, the deletion of
    the bucket of every S3 source. *)
Theorem delete_kb_ordering self st :
  exists evs,
    trace (delete_kb W self true st).2 = trace st ++ evs
    /\ (forall i j k d k',
          evs !! i = Some (Call (Agent_delete_data_source k d)) ->
          evs !! j = Some (Call (Agent_delete_knowledge_base k')) -> (i < j)%nat)
    /\ (forall i j k c,
          evs !! i = Some (Call (Agent_delete_knowledge_base k)) ->
          evs !! j = Some (Call c) -> storage_call c -> (i < j)%nat)
    /\ (forall j k,
          evs !! j = Some (Call (Agent_delete_knowledge_base k)) ->
          exists dss,
            listed_data_sources W self (trace st) = inr dss
            /\ forall ds, ds ∈ dss ->
                 exists id i,
                   getitem ds "dataSourceId" = inr id /\ (i < j)%nat
                   /\ evs !! i = Some (Call (Agent_delete_data_source (kb_id self) id)))
    /\ (forall j c,
          evs !! j = Some (Call c) -> storage_call c ->
          exists i, (i < j)%nat
                    /\ evs !! i = Some (Call (Agent_delete_knowledge_base (kb_id self))))
    /\ ((delete_kb W self true st).1 = inr tt -> truthy (kb_id self) = true ->
        (exists j, evs !! j = Some (Call (Agent_delete_knowledge_base (kb_id self))))
        /\ forall source, source ∈ data_sources self -> is_S3 source = true ->
             exists j, evs !! j = Some (Call (S3_delete_bucket (bucket_name source)))).
Proof.
  destruct (delete_kb_shape W self true st) as (evs & Htr & A & B & -> & HA & HB).
  exists (A ++ B). split; [exact Htr|].
  assert (forall j k, (A ++ B) !! j = Some (Call (Agent_delete_knowledge_base k)) ->
            j = List.length A /\ B <> []) as Hkb.
  { intros j k Hj. destruct (binding_phase _ _ _ _ HA Hj) as [Hle Hn]; [by intros []|].
    destruct HB as [-> | (C & dss & -> & HC & _)]; [done|].
    apply (storage_phase _ _ _ _ HC) in Hn; [|by intros []]. split; [lia | done]. }
  assert (forall i k d, (A ++ B) !! i = Some (Call (Agent_delete_data_source k d)) ->
            (i < List.length A)%nat) as Hds.
  { intros i k d [Hi | [Hle Hi]]%lookup_app_Some; [by eapply lookup_lt_Some|].
    exfalso. destruct HB as [-> | (C & dss & -> & HC & _)]; [done|].
    destruct (i - List.length A)%nat as [|n]; [done|].
    by apply (Forall_lookup_1 _ _ _ _ HC) in Hi. }
  assert (forall j c, (A ++ B) !! j = Some (Call c) -> storage_call c ->
            (List.length A < j)%nat
            /\ (A ++ B) !! List.length A = Some (Call (Agent_delete_knowledge_base (kb_id self))))
    as Hst.
  { intros j c Hj Hc.
    destruct (binding_phase _ _ _ _ HA Hj) as [Hle Hn];
      [destruct c; cbn in Hc |- *; tauto|].
    destruct HB as [-> | (C & dss & -> & HC & _)]; [done|].
    split.
    - destruct (j - List.length A)%nat as [|n] eqn:E; [|lia].
      injection Hn as <-. destruct Hc.
    - by rewrite lookup_app_r, Nat.sub_diag. }
  split; [|split; [|split; [|split]]].
  - intros i j k d k' Hi Hj. apply Hds in Hi. apply Hkb in Hj as [-> _]. exact Hi.
  - intros i j k c Hi Hj Hc. apply Hkb in Hi as [-> _].
    by destruct (Hst j c Hj Hc).
  - intros j k Hj. destruct (Hkb j k Hj) as [-> HBne].
    destruct HB as [-> | (C & dss & -> & HC & Hl & Hall)]; [done|].
    exists dss. split; [exact Hl|]. intros ds Hin.
    destruct (Hall ds Hin) as (id & Hid & [i Hi]%list_elem_of_lookup_1).
    exists id, i. split; [exact Hid|]. split; [by eapply lookup_lt_Some|].
    by apply lookup_app_l_Some.
  - intros j c Hj Hc. destruct (Hst j c Hj Hc) as [Hlt Hk]. eauto.
  - intros Hok Hid.
    destruct (delete_kb W self true st) as [r st'] eqn:Hrun. cbn [fst snd] in Hok, Htr.
    subst r. destruct (delete_kb_success W self st st' Hid Hrun) as (evs & Htr' & Hin & Hall).
    rewrite Htr in Htr'. apply app_inv_head in Htr'. rewrite Htr'.
    split; [by apply list_elem_of_lookup_1|].
    intros source Hsource HS3. by apply list_elem_of_lookup_1, Hall.
Qed.

End Ordering.

(** ** Provisioning: which errors [_setup_knowledge_base] propagates *)

Section Propagation.
Context (W : world) (critical : call -> Prop).

Lemma propagates_nil {A} h (r : result A) : propagates W critical h [] r.
Proof. intros i c e Hi. by rewrite lookup_nil in Hi. Qed.

Lemma propagating_pure {A} (r : result A) : propagating W critical (lift r).
Proof. intros st. exists []. rewrite app_nil_r. split; [reflexivity | apply propagates_nil]. Qed.

Lemma propagating_ret {A} (x : A) : propagating W critical (mret x).
Proof. apply (propagating_pure (inr x)). Qed.

Lemma propagating_raise {A} e : propagating W critical (@raise A e).
Proof. apply (propagating_pure (inl e)). Qed.

Lemma propagating_logger lvl msg : propagating W critical (logger lvl msg).
Proof.
  intros st. exists [Log lvl msg]. split; [reflexivity|].
  intros i c e Hi. destruct i; cbn in Hi; discriminate Hi.
Qed.

Lemma propagating_invoke c : propagating W critical (invoke W c).
Proof.
  intros st. exists [Call c]. split; [reflexivity|].
  intros i c' e Hi Hc HW. destruct i; cbn in Hi; [|discriminate Hi].
  injection Hi as <-. cbn in HW |- *. rewrite app_nil_r in HW. split; [exact HW|].
  intros j c' Hj. destruct j; [lia | cbn; discriminate].
Qed.

(** Events that are not critical calls leave nothing to propagate. *)
Lemma propagating_quiet {A} (m : M A) :
  steps (appends (quiet critical)) m -> propagating W critical m.
Proof.
  intros Hm st. destruct (Hm st) as [_ (evs & Htr & Hq)].
  exists evs. split; [exact Htr|]. intros i c e Hi Hc _.
  by apply (Forall_lookup_1 _ _ _ _ Hq) in Hi.
Qed.

Lemma propagates_app {A B} h evs1 evs2 (x : A) (r : result B) :
  propagates W critical h evs1 (inr x) ->
  propagates W critical (h ++ evs1) evs2 r ->
  propagates W critical h (evs1 ++ evs2) r.
Proof.
  intros H1 H2 i c e Hi Hc HW.
  apply lookup_app_Some in Hi as [Hi | [Hle Hi]].
  - rewrite take_app_le in HW by (apply Nat.lt_le_incl; by eapply lookup_lt_Some).
    by destruct (H1 i c e Hi Hc HW) as [? _].
  - rewrite take_app_ge, app_assoc in HW by exact Hle.
    destruct (H2 _ c e Hi Hc HW) as [-> Hlater]. split; [reflexivity|].
    intros j c' Hj. rewrite lookup_app_r by lia. apply Hlater. lia.
Qed.

Lemma propagates_inl {A B} h evs e :
  propagates W critical h evs (inl e : result A) ->
  propagates W critical h evs (inl e : result B).
Proof.
  intros H i c e' Hi Hc HW. destruct (H i c e' Hi Hc HW) as [He Hlater].
  injection He as ->. by split.
Qed.

Lemma propagating_bind {A B} (m : M A) (k : A -> M B) :
  propagating W critical m -> (forall x, propagating W critical (k x)) ->
  propagating W critical (m ≫= k).
Proof.
  intros Hm Hk st. rewrite bind_run.
  destruct (Hm st) as (evs1 & Htr1 & H1).
  destruct (m st) as [[e | x] st1]; cbn [fst snd] in *.
  { exists evs1. split; [exact Htr1 | by apply (propagates_inl (A:=A))]. }
  destruct (Hk x st1) as (evs2 & Htr2 & H2).
  exists (evs1 ++ evs2). split; [by rewrite Htr2, Htr1, app_assoc|].
  rewrite Htr1 in H2. by eapply propagates_app.
Qed.

(** A handler that logs and raises the exception again keeps propagating. *)
Lemma propagating_reraise {A} (m : M A) lvl (msg : exn -> string) :
  propagating W critical m ->
  propagating W critical (try_except m (fun e => logger lvl (msg e) ;; raise e)).
Proof.
  intros Hm st. rewrite try_except_run.
  destruct (Hm st) as (evs & Htr & H).
  destruct (m st) as [[e | x] st1]; cbn [fst snd] in *; [|by exists evs].
  change ((logger lvl (msg e) ;; raise e) st1)
    with (inl e : result A, with_trace st1 (trace st1 ++ [Log lvl (msg e)])).
  exists (evs ++ [Log lvl (msg e)]). split; [cbn; by rewrite Htr, app_assoc|].
  cbn [fst]. intros i c e' Hi Hc HW.
  apply lookup_app_Some in Hi as [Hi | [Hle Hi]].
  - rewrite take_app_le in HW by (apply Nat.lt_le_incl; by eapply lookup_lt_Some).
    destruct (H i c e' Hi Hc HW) as [He Hlater]. split; [exact He|].
    intros j c' Hj [Hj' | [_ Hj']]%lookup_app_Some; [by eapply Hlater|].
    destruct (j - _)%nat; cbn in Hj'; discriminate Hj'.
  - destruct (i - _)%nat; cbn in Hi; discriminate Hi.
Qed.

Lemma propagating_for_each {A} (l : list A) body :
  (forall x, propagating W critical (body x)) ->
  propagating W critical (for_each l body).
Proof.
  intros Hb. induction l as [|x l IH]; [apply propagating_ret|].
  apply propagating_bind; [apply Hb | intros _; exact IH].
Qed.

End Propagation.

Ltac propagating_structure :=
  repeat match goal with
    | |- forall _, propagating _ _ _ => intros ?
    | |- propagating _ _ (_ ≫= _) => apply propagating_bind
    | |- propagating _ _ (try_except _ (fun e => logger _ _ ;; raise e)) =>
        apply (propagating_reraise _ _ _ _ (fun e => _))
    | |- propagating _ _ (for_each _ _) => apply propagating_for_each
    | |- propagating _ _ (mret _) => apply propagating_ret
    | |- propagating _ _ (lift _) => apply propagating_pure
    | |- propagating _ _ (raise _) => apply propagating_raise
    | |- propagating _ _ (logger _ _) => apply propagating_logger
    | |- propagating _ _ (invoke _ _) => apply propagating_invoke
    | |- propagating _ _ (if ?b then _ else _) => destruct b
    end.

Section Setup.
Context (W : world) (region : value) (data_bucket_name : string).

Lemma create_role_propagating critical self :
  propagating W critical (_create_role_for_kb W data_bucket_name self).
Proof. unfold _create_role_for_kb. propagating_structure. Qed.

Lemma add_data_source_propagating critical self b :
  propagating W critical (_add_s3_data_source W self b).
Proof. unfold _add_s3_data_source. propagating_structure. Qed.

Lemma setup_propagating self :
  propagating W beyond_bucket (_setup_knowledge_base W region data_bucket_name self).
Proof.
  unfold _setup_knowledge_base. propagating_structure.
  - apply propagating_quiet. unfold create_source_bucket.
    steps_structure; cbn; unfold beyond_bucket; cbn; tauto.
  - apply create_role_propagating.
  - apply add_data_source_propagating.
Qed.

End Setup.

Section SetupTrace.
Context (W : world) (region : value) (data_bucket_name : string).

Lemma create_role_first Q self :
  (forall c, ~ bucket_creation c -> Q (Call c)) -> (forall lvl msg, Q (Log lvl msg)) ->
  steps (first_then (Call (Iam_create_role ("BedrockKBRole-" +:+ suffix self))) Q)
        (_create_role_for_kb W data_bucket_name self).
Proof.
  intros HQ HL. unfold _create_role_for_kb.
  apply steps_first_try; [apply steps_first_bind; [apply steps_first_invoke|]|];
    steps_structure; first [apply HL | apply HQ; by intros []].
Qed.

Lemma create_source_bucket_run s st :
  create_source_bucket W s st =
    if is_S3 s then
      let c := S3_create_bucket (bucket_name s) in
      let lg := match W (trace st) c with
                | inl e => Log ERROR ("Error creating bucket: " +:+ exn_str e)
                | inr _ => Log INFO ("Created S3 bucket: " +:+ bucket_name s)
                end in
      (inr tt, with_trace st (trace st ++ [Call c; lg]))
    else (inr tt, st).
Proof.
  unfold create_source_bucket. destruct (is_S3 s); [|reflexivity].
  rewrite try_except_run, bind_run, invoke_run. cbn zeta.
  destruct (W (trace st) _) as [e | v]; unfold logger, with_trace; cbn;
    by rewrite <- app_assoc.
Qed.

(** The bucket loop of [_setup_knowledge_base] never raises; a bucket call
    that raised is followed by the log line of its handler. *)
Lemma bucket_loop_trace sources st :
  exists evs,
    (for_each sources (create_source_bucket W) st).1 = inr tt
    /\ trace (for_each sources (create_source_bucket W) st).2 = trace st ++ evs
    /\ Forall bucket_event evs
    /\ forall i b e,
         evs !! i = Some (Call (S3_create_bucket b)) ->
         W (trace st ++ take i evs) (S3_create_bucket b) = inl e ->
         evs !! S i = Some (Log ERROR ("Error creating bucket: " +:+ exn_str e)).
Proof.
  revert st. induction sources as [|s l IH]; intros st.
  - exists []. rewrite app_nil_r. repeat split; [constructor|]. intros i b e Hi.
    by rewrite lookup_nil in Hi.
  - cbn [for_each]. rewrite bind_run, create_source_bucket_run.
    destruct (is_S3 s); [|exact (IH st)].
    cbn zeta. set (c := S3_create_bucket (bucket_name s)).
    set (lg := match W (trace st) c with inl _ => _ | inr _ => _ end).
    destruct (IH (with_trace st (trace st ++ [Call c; lg])))
      as (evs & Hr & Htr & Hev & Hlog).
    exists ([Call c; lg] ++ evs). split; [exact Hr|].
    split; [by rewrite Htr; cbn; rewrite <- app_assoc|].
    split.
    { repeat constructor; [|exact Hev]. subst lg. by destruct (W (trace st) c). }
    intros i b e Hi HW. destruct i as [|[|i]]; cbn in Hi.
    + injection Hi as <-. cbn in HW. rewrite app_nil_r in HW. fold c in HW.
      cbn. subst lg. by rewrite HW.
    + exfalso. subst lg. by destruct (W (trace st) c).
    + cbn in HW |- *. apply (Hlog i b e Hi). cbn. rewrite <- app_assoc. exact HW.
Qed.

End SetupTrace.

Section SetupClaim.
Context (W : world) (region : value) (data_bucket_name : string).

Lemma setup_trace self st :
  exists evs_b rest,
    trace (_setup_knowledge_base W region data_bucket_name self st).2
      = trace st ++ evs_b
          ++ Call (Iam_create_role ("BedrockKBRole-" +:+ suffix self)) :: rest
    /\ Forall bucket_event evs_b
    /\ Forall (quiet bucket_creation) rest
    /\ forall i b e,
         evs_b !! i = Some (Call (S3_create_bucket b)) ->
         W (trace st ++ take i evs_b) (S3_create_bucket b) = inl e ->
         evs_b !! S i = Some (Log ERROR ("Error creating bucket: " +:+ exn_str e)).
Proof.
  unfold _setup_knowledge_base. rewrite bind_run.
  destruct (bucket_loop_trace W (data_sources self) st) as (evs_b & Hr & Htr & Hev & Hlog).
  destruct (for_each _ _ st) as [[e | []] st1]; cbn [fst snd] in Hr, Htr; [discriminate|].
  match goal with |- context [try_except ?m ?h st1] =>
    assert (steps (first_then (Call (Iam_create_role ("BedrockKBRole-" +:+ suffix self)))
                              (quiet bucket_creation)) (try_except m h)) as Hfirst
  end.
  { apply steps_first_try; [apply steps_first_bind; [apply create_role_first|]|].
    - by intros c Hc.
    - by intros lvl msg.
    - unfold _add_s3_data_source. steps_structure; by cbn; try intros [].
    - steps_structure. exact I. }
  destruct (Hfirst st1) as [_ (rest & Htr2 & Hrest)].
  exists evs_b, rest. split; [by rewrite Htr2, Htr, <- app_assoc|]. by repeat split.
Qed.

(** C1, amended to what the code does: every error raised by a provisioning
    call after the buckets (role, policy, attachment, knowledge base, data
    source) is the outcome of [_setup_knowledge_base], and no call follows
    the one that raised (no retry, no further step).  An error of a bucket
    creation is not propagated: its handler logs it, and provisioning goes
    on to create the role. *)
Theorem setup_propagates_beyond_bucket self st :
  exists evs,
    trace (_setup_knowledge_base W region data_bucket_name self st).2 = trace st ++ evs
    /\ propagates W beyond_bucket (trace st) evs
         (_setup_knowledge_base W region data_bucket_name self st).1
    /\ forall i b e,
         evs !! i = Some (Call (S3_create_bucket b)) ->
         W (trace st ++ take i evs) (S3_create_bucket b) = inl e ->
         evs !! S i = Some (Log ERROR ("Error creating bucket: " +:+ exn_str e))
         /\ exists j, (i < j)%nat
              /\ evs !! j = Some (Call (Iam_create_role ("BedrockKBRole-" +:+ suffix self))).
Proof.
  destruct (setup_propagating W region data_bucket_name self st) as (evs & Htr & Hp).
  exists evs. split; [exact Htr|]. split; [exact Hp|].
  destruct (setup_trace self st) as (evs_b & rest & Htr' & Hev & Hrest & Hlog).
  rewrite Htr in Htr'. apply app_inv_head in Htr' as ->.
  intros i b e Hi HW.
  assert (i < List.length evs_b)%nat as Hlt.
  { apply lookup_app_Some in Hi as [Hi | [Hle Hi]]; [by eapply lookup_lt_Some|].
    exfalso. destruct (i - List.length evs_b)%nat as [|n]; [discriminate Hi|].
    cbn in Hi. by apply (Forall_lookup_1 _ _ _ _ Hrest) in Hi; apply Hi. }
  rewrite lookup_app_l in Hi by exact Hlt.
  rewrite take_app_le in HW by lia.
  pose proof (Hlog i b e Hi HW) as Hnext. split.
  - by apply lookup_app_l_Some.
  - exists (List.length evs_b). split; [exact Hlt|].
    by rewrite lookup_app_r, Nat.sub_diag.
Qed.

End SetupClaim.

(** C1 as stated, for every provisioning call, fails: when the bucket
    creation raises, [_setup_knowledge_base] goes on and returns the
    identifier of the knowledge base. *)
Lemma setup_swallows_bucket_error :
  ~ propagating services_bucket_taken provisioning_call
      (_setup_knowledge_base services_bucket_taken (VStr "us-east-1")
         "bedrock-kb-data-1" kb_fresh).
Proof.
  intros H. destruct (H st_start) as (evs & Htr & Hp).
  vm_compute in Htr. subst evs.
  destruct (Hp 0%nat (S3_create_bucket "bedrock-kb-data-1")
              (Exn "ClientError" "BucketAlreadyOwnedByYou")) as [Hr _];
    [reflexivity | exact I | reflexivity |].
  vm_compute in Hr. discriminate Hr.
Qed.

(** ** The query pipeline *)

Section QueryCalls.
Context (W : world) (json_loads : string -> result value)
        (format_fields : string -> list value -> result string).

Lemma try_get_kb {A} (k : BedrockKnowledgeBase -> M A) h st kb :
  kb_instance st = Some kb ->
  try_except (get_kb_instance ≫= k) h st = try_except (k kb) h st.
Proof.
  intros Hkb. rewrite !try_except_run, bind_run. unfold get_kb_instance.
  by rewrite Hkb.
Qed.

Lemma query_kb_post req st q :
  method req = POST -> assoc "query" (form req) = Some q -> q <> "" ->
  query_kb W json_loads format_fields req st =
    try_except (retrieve_and_generate W json_loads format_fields q)
      (fun e =>
         logger ERROR ("Error querying knowledge base: " +:+ exn_str e);;
         respond (jsonify [ ("error", VStr (exn_str e)) ]) 500) st.
Proof.
  intros Hm Hq Hne. unfold query_kb. rewrite Hm, Hq. cbn [query_missing].
  apply String.eqb_neq in Hne. by rewrite Hne.
Qed.




End QueryCalls.

Section QueryAnswer.
Context (W : world) (json_loads : string -> result value)
        (format_fields : string -> list value -> result string).

(** Whatever the services answer, a successful query is answered with the
    bare value found in the model's body. *)
Lemma query_answer_is_raw req st r st' :
  method req = POST ->
  query_kb W json_loads format_fields req st = (inr r, st') -> status r = 200 ->
  exists v, body_of r = Raw v.
Proof.
  intros Hm Hrun H200. unfold query_kb in Hrun. rewrite Hm in Hrun.
  destruct (query_missing _); [by injection Hrun as <- _|].
  rewrite try_except_run in Hrun. case_run_in Hrun.
  - rewrite bind_run in Hrun. injection Hrun as <- _. discriminate H200.
  - injection Hrun as <- <-. unfold retrieve_and_generate in Hrun0.
    repeat (apply bind_inr in Hrun0 as (? & ? & _ & Hrun0)).
    injection Hrun0 as <- _. eauto.
Qed.

End QueryAnswer.

(** ** The statements at work on the scenarios *)

Lemma upload_removes_local_file_witness :
  method (post_file "report.pdf") = POST
  /\ allowed_file (filename report_pdf) = inr true
  /\ exists r st',
       upload_file services_s3_down secure_plain "bedrock-kb-data-1"
         (post_file "report.pdf") st_ready = (inr r, st')
       /\ (status r = 200 \/ status r = 500)
       /\ local_path secure_plain report_pdf ∉ disk st'.
Proof.
  split; [reflexivity|]. split; [vm_compute; reflexivity|].
  apply (upload_removes_local_file services_s3_down secure_plain "bedrock-kb-data-1"
           (post_file "report.pdf") report_pdf st_ready VNone);
    [reflexivity | reflexivity | vm_compute; reflexivity | reflexivity].
Defined.

Lemma upload_rejects_disallowed_extension_witness :
  has_pdf_extension "notes.txt" = false
  /\ exists msg,
       upload_file services_ok secure_plain "bedrock-kb-data-1" (post_file "notes.txt") st_ready
       = (inr {| body_of := Json (VDict [ ("error", VStr msg) ]); status := 400 |}, st_ready).
Proof.
  split; [reflexivity|].
  apply (upload_rejects_disallowed_extension services_ok secure_plain "bedrock-kb-data-1"
           (post_file "notes.txt") {| filename := "notes.txt"; stream := "%PDF" |} st_ready);
    reflexivity.
Defined.

Lemma upload_client_error_no_effect_witness :
  method (post_file "") = POST
  /\ forall r st',
       upload_file services_ok secure_plain "bedrock-kb-data-1" (post_file "") st_ready
         = (inr r, st') ->
       status r = 400 -> st' = st_ready.
Proof.
  split; [reflexivity|].
  apply (upload_client_error_no_effect services_ok secure_plain "bedrock-kb-data-1"
           (post_file "") st_ready). reflexivity.
Defined.

Lemma query_rejects_empty_witness :
  method (post_query "") = POST
  /\ (assoc "query" (form (post_query "")) = None
      \/ assoc "query" (form (post_query "")) = Some "")
  /\ query_kb services_ok loads_answer no_fields (post_query "") st_ready
     = (inr (error_response "No query provided" 400), st_ready).
Proof.
  split; [reflexivity|]. split; [by right|].
  apply (query_rejects_empty services_ok loads_answer no_fields (post_query "") st_ready);
    [reflexivity | by right].
Defined.

Lemma cleanup_twice_never_raises_witness :
  cleanup services_once st_ready = (inr cleanup_ok, st_cleaned)
  /\ exists kb r2 st2,
       kb_instance st_cleaned = Some kb
       /\ cleanup services_once st_cleaned = (inr r2, st2)
       /\ (r2 = cleanup_ok \/ exists e, r2 = error_response (exn_str e) 500)
       /\ (truthy (kb_id kb) = false -> r2 = cleanup_ok /\ st2 = st_cleaned)
       /\ (forall e,
             truthy (kb_id kb) = true ->
             services_once (trace st_cleaned) (Agent_list_data_sources (kb_id kb)) = inl e ->
             r2 = error_response (exn_str e) 500).
Proof.
  split; [vm_compute; reflexivity|].
  apply (cleanup_twice_never_raises services_once st_ready st_cleaned).
  vm_compute; reflexivity.
Defined.

Lemma delete_kb_ordering_witness :
  exists evs i j k,
    trace (delete_kb services_ok kb_ready true st_ready).2 = trace st_ready ++ evs
    /\ evs !! i = Some (Call (Agent_delete_data_source (VStr "KB1") (VStr "DS1")))
    /\ evs !! j = Some (Call (Agent_delete_knowledge_base (VStr "KB1")))
    /\ evs !! k = Some (Call (S3_delete_bucket "bedrock-kb-data-1"))
    /\ (i < j < k)%nat.
Proof.
  destruct (delete_kb_ordering services_ok kb_ready st_ready)
    as (evs & Htr & _ & Hkb_first & Hbound & _ & Hdone).
  destruct Hdone as [[j Hj] Hbuckets]; [vm_compute; reflexivity | reflexivity |].
  destruct (Hbuckets {| source_type := "S3"; bucket_name := "bedrock-kb-data-1" |})
    as [k Hk]; [by left | reflexivity |].
  destruct (Hbound j _ Hj) as (dss & Hdss & Hall).
  injection Hdss as <-.
  destruct (Hall (VDict [ ("dataSourceId", VStr "DS1") ])) as (id & i & Hid & Hij & Hi);
    [by left|].
  injection Hid as <-.
  exists evs, i, j, k. repeat split; try assumption.
  by apply (Hkb_first j k _ _ Hj Hk).
Defined.



(** *** Provisioning *)

(** The knowledge base cannot be created: the error reaches the caller,
    after the role was set up and before any data source is bound. *)
Example setup_kb_denied :
  let run := _setup_knowledge_base services_kb_denied (VStr "us-east-1")
               "bedrock-kb-data-1" kb_fresh st_start in
  run.1 = inl (Exn "ClientError" "AccessDeniedException")
  /\ last (trace run.2)
     = Some (Log ERROR "Error creating Knowledge Base: AccessDeniedException").
Proof. split; vm_compute; reflexivity. Qed.

(** The bucket exists already: the knowledge base is provisioned all the same. *)
Example setup_bucket_taken :
  (_setup_knowledge_base services_bucket_taken (VStr "us-east-1")
     "bedrock-kb-data-1" kb_fresh st_start).1
  = inr (kb_ready, VStr "KB1").
Proof. vm_compute. reflexivity. Qed.

(** *** Upload *)

(** The scenario of the spec: [report.pdf] is uploaded, the answer names the
    file and the ingestion job, and the local copy is gone. *)
Example upload_report :
  let run := upload_file services_ok secure_plain "bedrock-kb-data-1"
               (post_file "report.pdf") st_ready in
  run.1 = inr {| body_of := jsonify [ ("message", VStr "File uploaded successfully");
                                     ("filename", VStr "report.pdf");
                                     ("ingestion_job_id", VStr "JOB1") ];
                 status := 200 |}
  /\ elements (disk run.2) = []
  /\ trace run.2 = [ Call (File_save "uploads/report.pdf");
                     Call (S3_upload_file "uploads/report.pdf" "bedrock-kb-data-1" "report.pdf");
                     Call (Agent_start_ingestion_job (VStr "KB1"));
                     Log INFO "Started ingestion job: JOB1" ].
Proof. repeat split; vm_compute; reflexivity. Qed.

(** *** Cleanup *)

(** The second [cleanup] in a row answers with the not-found message. *)
Example cleanup_again :
  (cleanup services_once st_cleaned).1
  = inr (error_response "Knowledge base KB1 is not found" 500).
Proof. vm_compute. reflexivity. Qed.

(** *** Teardown *)

(** A teardown with purge on services that answer: the two listed bindings
    are deleted, then the knowledge base, then the bucket is listed, emptied
    and deleted. *)
Example delete_kb_teardown :
  let run := delete_kb services_ok kb_ready true st_ready in
  run.1 = inr tt
  /\ calls (trace run.2)
     = [ Agent_list_data_sources (VStr "KB1");
         Agent_delete_data_source (VStr "KB1") (VStr "DS1");
         Agent_delete_data_source (VStr "KB1") (VStr "DS2");
         Agent_delete_knowledge_base (VStr "KB1");
         S3_list_objects_v2 "bedrock-kb-data-1";
         S3_delete_objects "bedrock-kb-data-1" [ VStr "report.pdf" ];
         S3_delete_bucket "bedrock-kb-data-1" ].
Proof. split; vm_compute; reflexivity. Qed.

(** *** Query *)

(** A query as the program of the file answers it: the retrieval and the
    generation call are made, the lookup of [invoke_model] raises, and the
    handler answers 500 with the message. *)
Example query_deployed :
  let run := query_kb services_deployed loads_answer no_fields
               (post_query "What was Q1 revenue?") st_ready in
  run.1 = inr (error_response
                 "'AgentsforBedrockRuntime' object has no attribute 'invoke_model'" 500)
  /\ calls (trace run.2)
     = [ Runtime_retrieve "What was Q1 revenue?" (VStr "KB1") 5 "HYBRID";
         generation_call
           (rendered_prompt "['Q1 revenue was 5 million']" "What was Q1 revenue?") ].
Proof. split; vm_compute; reflexivity. Qed.

(** Were the generation call to answer, the handler would return the text
    found in the model's body alone, as a bare value. *)
Example query_answer_bare :
  (query_kb services_ok loads_answer no_fields (post_query "What was Q1 revenue?")
     st_ready).1
  = inr {| body_of := Raw (VStr "Revenue in the first quarter was 5 million.");
           status := 200 |}.
Proof. vm_compute. reflexivity. Qed.

(** *** The extra [format] *)

(** Outside the brace-free queries the extra [format] is not the identity:
    doubled braces are halved, and a closing brace on its own makes the
    handler answer 500 before any generation call. *)
Example format_doubled_braces :
  format no_fields "{{0}}" [ VList []; VStr "{{0}}" ] = inr "{0}".
Proof. reflexivity. Qed.

Example query_with_closing_brace :
  let run := query_kb services_ok loads_answer no_fields (post_query "}") st_ready in
  run.1 = inr (error_response "Single '}' encountered in format string" 500)
  /\ calls (trace run.2) = [ Runtime_retrieve "}" (VStr "KB1") 5 "HYBRID" ].
Proof. split; vm_compute; reflexivity. Qed.

(** * Further properties *)

(** ** Running a computation step by step *)

(** Run the computation at the head of the goal as far as it is determined;
    what the environment answers is then rewritten with a hypothesis. *)
Ltac run :=
  repeat first
    [ rewrite bind_run | rewrite try_except_run | rewrite invoke_run
    | rewrite ret_run | rewrite lift_run | rewrite logger_run | rewrite raise_run
    | rewrite respond_run | rewrite trace_with_trace | rewrite with_trace_twice
    | rewrite <- app_assoc | progress cbn [app] | progress cbv beta iota ].

Ltac run_with H := run; rewrite H; run.

(** ** Upload: the exits of [upload_file] *)

Section UploadExits.
Context (W : world) (secure_filename : string -> string) (data_bucket_name : string).

Lemma start_ingestion_job_ok kb st response job job_id :
  W (trace st) (Agent_start_ingestion_job (kb_id kb)) = inr response ->
  getitem response "ingestionJob" = inr job ->
  getitem job "ingestionJobId" = inr job_id ->
  start_ingestion_job W kb st =
    (inr job_id,
     with_trace st (trace st ++ [Call (Agent_start_ingestion_job (kb_id kb));
                                 Log INFO ("Started ingestion job: " +:+ str job_id)])).
Proof.
  intros HW Hjob Hid. unfold start_ingestion_job.
  rewrite try_except_run, bind_run, invoke_run, HW.
  rewrite bind_run. unfold lift at 1. rewrite Hjob.
  rewrite bind_run. unfold lift at 1. rewrite Hid.
  rewrite bind_run. unfold logger at 1.
  rewrite bind_run. unfold lift. rewrite Hid.
  unfold with_trace. cbn. by rewrite <- app_assoc.
Qed.

Lemma start_ingestion_job_error kb st e :
  W (trace st) (Agent_start_ingestion_job (kb_id kb)) = inl e ->
  start_ingestion_job W kb st =
    (inl e,
     with_trace st (trace st ++ [Call (Agent_start_ingestion_job (kb_id kb));
                                 Log ERROR ("Error starting ingestion job: " +:+ exn_str e)])).
Proof.
  intros HW. unfold start_ingestion_job.
  rewrite try_except_run, bind_run, invoke_run, HW.
  rewrite bind_run. unfold logger, raise, with_trace. cbn. by rewrite <- app_assoc.
Qed.

(** The [finally] block of [upload_to_s3] keeps the outcome of the [try]. *)
Lemma upload_to_s3_run file_path filename st r st1 :
  try_except
    (invoke W (S3_upload_file file_path data_bucket_name filename);;
     kb ← get_kb_instance;
     ingestion_job_id ← start_ingestion_job W kb;
     respond (jsonify [ ("message", VStr "File uploaded successfully");
                        ("filename", VStr filename);
                        ("ingestion_job_id", ingestion_job_id) ]) 200)
    (fun e =>
       logger ERROR ("Error uploading file: " +:+ exn_str e);;
       respond (jsonify [ ("error", VStr (exn_str e)) ]) 500) st = (r, st1) ->
  upload_to_s3 W data_bucket_name file_path filename st
  = (r, if bool_decide (file_path ∈ disk st1)
        then with_disk st1 (disk st1 ∖ {[file_path]}) else st1).
Proof.
  intros Hm. unfold upload_to_s3, try_finally. rewrite Hm.
  rewrite bind_run. unfold path_exists, os_remove.
  destruct (bool_decide (file_path ∈ disk st1)) eqn:E; cbn; by rewrite ?E.
Qed.

Lemma upload_file_allowed req file st :
  method req = POST -> assoc "file" (files req) = Some file ->
  allowed_file (filename file) = inr true ->
  upload_file W secure_filename data_bucket_name req st =
    (save W file (local_path secure_filename file) ;;
     upload_to_s3 W data_bucket_name (local_path secure_filename file)
       (secure_filename (filename file))) st.
Proof.
  intros Hm Hf Hok.
  assert (filename file <> "") as Hn by (intros E; by rewrite E in Hok).
  rewrite (upload_file_named _ _ _ _ _ _ Hm Hf Hn).
  rewrite allowed_file_spec in Hok. injection Hok as ->. reflexivity.
Qed.

(** X1: [file.save] is outside the [try]: when it raises, the exception leaves
    [upload_file] uncaught (no JSON error is built and nothing is logged),
    and the save is the only call made: nothing is uploaded or ingested, and
    the [finally] that removes the local copy is not reached. *)
Theorem upload_save_error_escapes req file st e :
  method req = POST -> assoc "file" (files req) = Some file ->
  allowed_file (filename file) = inr true ->
  W (trace st) (File_save (local_path secure_filename file)) = inl e ->
  upload_file W secure_filename data_bucket_name req st
  = (inl e, with_trace st (trace st ++ [Call (File_save (local_path secure_filename file))])).
Proof.
  intros Hm Hf Hok Hsave. rewrite (upload_file_allowed _ _ _ Hm Hf Hok).
  rewrite bind_run. unfold save. by rewrite Hsave.
Qed.

(** X2: the upload that goes through.  When saving, the remote copy and the
    ingestion trigger succeed, the answer is 200 with the sanitised file
    name and the job identifier the service returned; the calls are the
    save, the copy to the data bucket under the sanitised name, and one
    ingestion start for the bound knowledge base, in this order; the local
    copy is gone. *)
Theorem upload_success_response req file st kb saved uploaded response job job_id :
  method req = POST -> assoc "file" (files req) = Some file ->
  allowed_file (filename file) = inr true ->
  kb_instance st = Some kb ->
  W (trace st) (File_save (local_path secure_filename file)) = inr saved ->
  W (trace st ++ [Call (File_save (local_path secure_filename file))])
    (upload_call secure_filename data_bucket_name file) = inr uploaded ->
  W (trace st ++ [Call (File_save (local_path secure_filename file));
                  Call (upload_call secure_filename data_bucket_name file)])
    (Agent_start_ingestion_job (kb_id kb)) = inr response ->
  getitem response "ingestionJob" = inr job ->
  getitem job "ingestionJobId" = inr job_id ->
  exists st',
    upload_file W secure_filename data_bucket_name req st
    = (inr (uploaded_response (secure_filename (filename file)) job_id), st')
    /\ trace st' = trace st ++ [Call (File_save (local_path secure_filename file));
                                Call (upload_call secure_filename data_bucket_name file);
                                Call (Agent_start_ingestion_job (kb_id kb));
                                Log INFO ("Started ingestion job: " +:+ str job_id)]
    /\ (local_path secure_filename file ∉ disk st')
    /\ kb_instance st' = Some kb.
Proof.
  intros Hm Hf Hok Hkb Hsave Hup Hstart Hjob Hid.
  rewrite (upload_file_allowed _ _ _ Hm Hf Hok).
  rewrite bind_run. unfold save at 1. rewrite Hsave.
  erewrite upload_to_s3_run.
  2:{ rewrite try_except_run, bind_run, invoke_run. cbn [trace].
      fold (upload_call secure_filename data_bucket_name file). rewrite Hup.
      rewrite bind_run. unfold get_kb_instance at 1. cbn [kb_instance with_trace].
      rewrite Hkb, bind_run.
      erewrite start_ingestion_job_ok;
        [| cbn [trace]; rewrite <- app_assoc; exact Hstart | exact Hjob | exact Hid].
      reflexivity. }
  eexists. split; [reflexivity|]. cbn [with_trace trace disk kb_instance].
  rewrite bool_decide_eq_true_2 by (apply elem_of_union_r; by apply elem_of_singleton).
  cbn. split; [by rewrite <- !app_assoc|]. split; [|done].
  intros [_ H]%elem_of_difference. apply H. by apply elem_of_singleton.
Qed.

(** X3: the remote copy fails.  The answer is the JSON error with status 500
    that carries the message of the exception; the ingestion is never
    started, and the local copy is removed all the same. *)
Theorem upload_copy_error req file st saved e :
  method req = POST -> assoc "file" (files req) = Some file ->
  allowed_file (filename file) = inr true ->
  W (trace st) (File_save (local_path secure_filename file)) = inr saved ->
  W (trace st ++ [Call (File_save (local_path secure_filename file))])
    (upload_call secure_filename data_bucket_name file) = inl e ->
  exists st',
    upload_file W secure_filename data_bucket_name req st
    = (inr (error_response (exn_str e) 500), st')
    /\ trace st' = trace st ++ [Call (File_save (local_path secure_filename file));
                                Call (upload_call secure_filename data_bucket_name file);
                                Log ERROR ("Error uploading file: " +:+ exn_str e)]
    /\ local_path secure_filename file ∉ disk st'.
Proof.
  intros Hm Hf Hok Hsave Hup.
  rewrite (upload_file_allowed _ _ _ Hm Hf Hok).
  rewrite bind_run. unfold save at 1. rewrite Hsave.
  erewrite upload_to_s3_run.
  2:{ rewrite try_except_run, bind_run, invoke_run. cbn [trace].
      fold (upload_call secure_filename data_bucket_name file). rewrite Hup.
      reflexivity. }
  eexists. split; [reflexivity|]. cbn [with_trace trace disk kb_instance].
  rewrite bool_decide_eq_true_2 by (apply elem_of_union_r; by apply elem_of_singleton).
  cbn. split; [by rewrite <- !app_assoc|].
  intros [_ H]%elem_of_difference. apply H. by apply elem_of_singleton.
Qed.

(** X4: the application object was never initialised ([kb_instance] is
    unbound, as when the module is served without running its main block).
    The file is copied to the bucket all the same; the lookup of the name
    then raises inside the [try], the answer is 500 with the [NameError]
    message, and no ingestion is started for the object left in the bucket. *)
Theorem upload_without_kb_instance req file st saved uploaded :
  method req = POST -> assoc "file" (files req) = Some file ->
  allowed_file (filename file) = inr true ->
  kb_instance st = None ->
  W (trace st) (File_save (local_path secure_filename file)) = inr saved ->
  W (trace st ++ [Call (File_save (local_path secure_filename file))])
    (upload_call secure_filename data_bucket_name file) = inr uploaded ->
  exists st',
    upload_file W secure_filename data_bucket_name req st
    = (inr (error_response "name 'kb_instance' is not defined" 500), st')
    /\ trace st' = trace st ++ [Call (File_save (local_path secure_filename file));
                                Call (upload_call secure_filename data_bucket_name file);
                                Log ERROR
                                  "Error uploading file: name 'kb_instance' is not defined"].
Proof.
  intros Hm Hf Hok Hkb Hsave Hup.
  rewrite (upload_file_allowed _ _ _ Hm Hf Hok).
  rewrite bind_run. unfold save at 1. rewrite Hsave.
  erewrite upload_to_s3_run.
  2:{ rewrite try_except_run, bind_run, invoke_run. cbn [trace].
      fold (upload_call secure_filename data_bucket_name file). rewrite Hup.
      rewrite bind_run. unfold get_kb_instance at 1. cbn [kb_instance with_trace].
      rewrite Hkb. reflexivity. }
  eexists. split; [reflexivity|]. cbn [with_trace trace disk kb_instance].
  rewrite bool_decide_eq_true_2 by (apply elem_of_union_r; by apply elem_of_singleton).
  cbn. by rewrite <- !app_assoc.
Qed.

(** X5: the ingestion trigger fails after the remote copy went through.
    [start_ingestion_job] logs and raises again, the handler logs a second
    time and answers 500 with the message; the object stays in the bucket
    (no compensating delete is issued) and the local copy is removed. *)
Theorem upload_ingestion_error req file st kb saved uploaded e :
  method req = POST -> assoc "file" (files req) = Some file ->
  allowed_file (filename file) = inr true ->
  kb_instance st = Some kb ->
  W (trace st) (File_save (local_path secure_filename file)) = inr saved ->
  W (trace st ++ [Call (File_save (local_path secure_filename file))])
    (upload_call secure_filename data_bucket_name file) = inr uploaded ->
  W (trace st ++ [Call (File_save (local_path secure_filename file));
                  Call (upload_call secure_filename data_bucket_name file)])
    (Agent_start_ingestion_job (kb_id kb)) = inl e ->
  exists st',
    upload_file W secure_filename data_bucket_name req st
    = (inr (error_response (exn_str e) 500), st')
    /\ trace st' = trace st ++ [Call (File_save (local_path secure_filename file));
                                Call (upload_call secure_filename data_bucket_name file);
                                Call (Agent_start_ingestion_job (kb_id kb));
                                Log ERROR ("Error starting ingestion job: " +:+ exn_str e);
                                Log ERROR ("Error uploading file: " +:+ exn_str e)]
    /\ local_path secure_filename file ∉ disk st'.
Proof.
  intros Hm Hf Hok Hkb Hsave Hup Hstart.
  rewrite (upload_file_allowed _ _ _ Hm Hf Hok).
  rewrite bind_run. unfold save at 1. rewrite Hsave.
  erewrite upload_to_s3_run.
  2:{ rewrite try_except_run, bind_run, invoke_run. cbn [trace].
      fold (upload_call secure_filename data_bucket_name file). rewrite Hup.
      rewrite bind_run. unfold get_kb_instance at 1. cbn [kb_instance with_trace].
      rewrite Hkb, bind_run.
      erewrite start_ingestion_job_error;
        [| cbn [trace]; rewrite <- app_assoc; exact Hstart].
      reflexivity. }
  eexists. split; [reflexivity|]. cbn [with_trace trace disk kb_instance].
  rewrite bool_decide_eq_true_2 by (apply elem_of_union_r; by apply elem_of_singleton).
  cbn. split; [by rewrite <- !app_assoc|].
  intros [_ H]%elem_of_difference. apply H. by apply elem_of_singleton.
Qed.

End UploadExits.

(** ** What the handlers leave alone *)

#[global] Instance quietly_preorder Q : PreOrder (quietly Q).
Proof.
  split.
  - intros st. split; reflexivity.
  - intros a b c [Hab Dab] [Hbc Dbc]. split; [by etransitivity | congruence].
Qed.

Lemma steps_invoke_quietly W (Q : event -> Prop) c :
  Q (Call c) -> steps (quietly Q) (invoke W c).
Proof. intros HQ st. split; [by apply steps_invoke | reflexivity]. Qed.

Lemma steps_logger_quietly (Q : event -> Prop) lvl msg :
  Q (Log lvl msg) -> steps (quietly Q) (logger lvl msg).
Proof. intros HQ st. split; [by apply steps_logger | reflexivity]. Qed.

(** Decompose a computation that touches neither the disk nor [kb_instance]. *)
Ltac quietly_structure :=
  repeat first
    [ progress steps_structure
    | apply steps_invoke_quietly
    | apply steps_logger_quietly ].

Section Frame.
Context (W : world) (secure_filename : string -> string)
        (json_loads : string -> result value)
        (format_fields : string -> list value -> result string) (data_bucket_name : string).

Lemma start_ingestion_job_quietly kb :
  steps (quietly any_event) (start_ingestion_job W kb).
Proof. unfold start_ingestion_job. quietly_structure; exact I. Qed.

Lemma delete_kb_quietly self purge : steps (quietly any_event) (delete_kb W self purge).
Proof.
  unfold delete_kb, delete_one_data_source, purge_bucket. quietly_structure; exact I.
Qed.

Lemma query_kb_quietly req : steps (quietly any_event) (query_kb W json_loads format_fields req).
Proof.
  unfold query_kb, retrieve_and_generate, render_template.
  destruct (method req); [quietly_structure|].
  destruct (query_missing _); quietly_structure; exact I.
Qed.

Lemma cleanup_quietly : steps (quietly any_event) (cleanup W).
Proof.
  unfold cleanup. quietly_structure; try exact I. apply delete_kb_quietly.
Qed.

(** X6: the query and cleanup handlers write no local file and never rebind
    or unbind [kb_instance]: after either, the upload folder and the
    application object are what they were.  In particular [cleanup] does
    not clear the identifier it deleted. *)
Theorem handlers_keep_local_state req st :
  (disk (query_kb W json_loads format_fields req st).2 = disk st
   /\ kb_instance (query_kb W json_loads format_fields req st).2 = kb_instance st)
  /\ (disk (cleanup W st).2 = disk st
      /\ kb_instance (cleanup W st).2 = kb_instance st).
Proof.
  split.
  - destruct (query_kb_quietly req st) as [[Hkb _] Hdisk]. by split.
  - destruct (cleanup_quietly st) as [[Hkb _] Hdisk]. by split.
Qed.

(** X7: [upload_file] touches one local path only, the one it saves the file
    under: every other path of the upload folder is present afterwards
    exactly when it was before; and [kb_instance] is unchanged. *)
Theorem upload_touches_own_path req st :
  kb_instance (upload_file W secure_filename data_bucket_name req st).2 = kb_instance st
  /\ forall q,
       (forall file, assoc "file" (files req) = Some file ->
                     q <> local_path secure_filename file) ->
       q ∈ disk (upload_file W secure_filename data_bucket_name req st).2 <-> q ∈ disk st.
Proof.
  destruct (method req) eqn:Hm; [by unfold upload_file; rewrite Hm|].
  destruct (assoc "file" (files req)) as [file|] eqn:Hf;
    [|by unfold upload_file; rewrite Hm, Hf].
  destruct (String.eqb_spec (filename file) "") as [Hn | Hn];
    [by unfold upload_file; rewrite Hm, Hf, Hn|].
  rewrite (upload_file_named _ _ _ _ _ _ Hm Hf Hn).
  destruct (has_pdf_extension (filename file)); [|done].
  cbn zeta. fold (local_path secure_filename file).
  set (p := local_path secure_filename file).
  rewrite bind_run.
  assert (exists st1, (save W file p st).2 = st1
                      /\ kb_instance st1 = kb_instance st
                      /\ forall q, q <> p -> q ∈ disk st1 <-> q ∈ disk st)
    as (st1 & Hst1 & Hkb1 & Hd1).
  { eexists. split; [reflexivity|]. unfold save.
    destruct (W (trace st) (File_save p)); cbn; split; try done.
    intros q Hq. rewrite elem_of_union, elem_of_singleton. tauto. }
  destruct (save W file p st) as [[e | []] st1']; cbn [snd] in Hst1; subst st1';
    [split; [exact Hkb1 | intros q Hq; apply Hd1, (Hq file eq_refl)]|].
  match goal with |- context [upload_to_s3 _ _ _ ?n _] => set (name := n) end.
  unfold upload_to_s3 at 1 2.
  match goal with |- context [try_finally ?m _ _] =>
    assert (steps (quietly any_event) m) as Htry
  end.
  { quietly_structure; try exact I. apply start_ingestion_job_quietly. }
  match goal with |- context [try_finally ?m ?f st1] =>
    specialize (Htry st1); unfold try_finally; destruct (m st1) as [r st2]
  end.
  destruct Htry as [[Hkb2 _] Hd2]. cbn [snd] in Hkb2, Hd2.
  rewrite bind_run. unfold path_exists, os_remove.
  destruct (bool_decide (p ∈ disk st2)) eqn:E; cbn; rewrite ?E; cbn.
  - split; [congruence|]. intros q Hq. specialize (Hq file eq_refl).
    rewrite elem_of_difference, elem_of_singleton, Hd2, (Hd1 q Hq). tauto.
  - split; [congruence|]. intros q Hq. rewrite Hd2. apply Hd1, (Hq file eq_refl).
Qed.

End Frame.

(** ** Query: the exits of [query_kb] *)

Section QueryExits.
Context (W : world) (json_loads : string -> result value)
        (format_fields : string -> list value -> result string).

(** X8: [query_kb] never lets an exception out.  A POST is answered with 400
    when the query is missing, with the bare answer and status 200, or with
    the JSON error and status 500, the message being [str(e)] of whatever
    raised between the lookup of [kb_instance] and the reading of the
    model's body, which is also the last line logged. *)
Theorem query_kb_answers req st :
  method req = POST ->
  exists r st',
    query_kb W json_loads format_fields req st = (inr r, st')
    /\ (r = error_response "No query provided" 400 /\ st' = st
        \/ (exists v, r = {| body_of := Raw v; status := 200 |})
        \/ exists e,
             r = error_response (exn_str e) 500
             /\ last (trace st')
                = Some (Log ERROR ("Error querying knowledge base: " +:+ exn_str e))).
Proof.
  intros Hm. unfold query_kb. rewrite Hm.
  destruct (query_missing _); [do 2 eexists; split; [reflexivity | by left]|].
  rewrite try_except_run. case_run.
  - rewrite bind_run. unfold logger at 1.
    do 2 eexists. split; [reflexivity|]. right. right. exists e.
    split; [reflexivity|]. cbn. apply last_snoc.
  - do 2 eexists. split; [reflexivity|]. right. left.
    unfold retrieve_and_generate in Hrun.
    repeat (apply bind_inr in Hrun as (? & ? & _ & Hrun)).
    injection Hrun as <- _. eauto.
Qed.

(** X9: retrieval fails, or answers something the passages cannot be read
    from.  The handler answers 500 with the message; it has made the single
    retrieval call: no retry, and no generation call. *)
Theorem query_retrieval_error req st q kb e :
  method req = POST -> assoc "query" (form req) = Some q -> q <> "" ->
  kb_instance st = Some kb ->
  (W (trace st) (Runtime_retrieve q (kb_id kb) 5 "HYBRID") = inl e
   \/ exists response,
        W (trace st) (Runtime_retrieve q (kb_id kb) 5 "HYBRID") = inr response
        /\ retrieved_texts response = inl e) ->
  query_kb W json_loads format_fields req st
  = (inr (error_response (exn_str e) 500),
     with_trace st
       (trace st ++ [Call (Runtime_retrieve q (kb_id kb) 5 "HYBRID");
                     Log ERROR ("Error querying knowledge base: " +:+ exn_str e)])).
Proof.
  intros Hm Hq Hne Hkb Hfail.
  rewrite (query_kb_post _ _ _ _ _ _ Hm Hq Hne).
  unfold retrieve_and_generate. rewrite (try_get_kb _ _ _ _ Hkb).
  rewrite try_except_run, bind_run, invoke_run. unfold get_knowledge_base_id.
  assert (forall st1 : state,
            trace st1 = trace st ++ [Call (Runtime_retrieve q (kb_id kb) 5 "HYBRID")] ->
            disk st1 = disk st -> kb_instance st1 = kb_instance st ->
            (logger ERROR ("Error querying knowledge base: " +:+ exn_str e);;
             respond (jsonify [("error", VStr (exn_str e))]) 500) st1
            = (inr (error_response (exn_str e) 500),
               with_trace st
                 (trace st ++ [Call (Runtime_retrieve q (kb_id kb) 5 "HYBRID");
                               Log ERROR ("Error querying knowledge base: " +:+ exn_str e)])))
    as Hhandler.
  { intros [t d k] Ht Hd Hk. cbn in Ht, Hd, Hk. subst.
    rewrite bind_run. unfold logger, respond, with_trace. cbn.
    by rewrite <- app_assoc. }
  destruct Hfail as [HW | (response & HW & Htexts)]; rewrite HW.
  - by apply Hhandler.
  - unfold retrieved_texts in Htexts.
    rewrite bind_run. unfold lift at 1.
    destruct (getitem response "retrievalResults") as [e1 | rr];
      [injection Htexts as ->; by apply Hhandler|].
    rewrite bind_run. unfold lift at 1.
    destruct (iter rr) as [e1 | results];
      [injection Htexts as ->; by apply Hhandler|].
    rewrite bind_run. unfold lift at 1. rewrite Htexts. by apply Hhandler.
Qed.


(** X11: with [kb_instance] unbound, the query and cleanup handlers answer 500
    with the [NameError] message and make no outbound call. *)
Theorem handlers_without_kb_instance req st q :
  kb_instance st = None ->
  method req = POST -> assoc "query" (form req) = Some q -> q <> "" ->
  query_kb W json_loads format_fields req st
  = (inr (error_response "name 'kb_instance' is not defined" 500),
     with_trace st (trace st ++ [Log ERROR
       "Error querying knowledge base: name 'kb_instance' is not defined"]))
  /\ cleanup W st
     = (inr (error_response "name 'kb_instance' is not defined" 500),
        with_trace st (trace st ++ [Log ERROR
          "Error cleaning up: name 'kb_instance' is not defined"])).
Proof.
  intros Hkb Hm Hq Hne. split.
  - rewrite (query_kb_post _ _ _ _ _ _ Hm Hq Hne).
    unfold retrieve_and_generate. rewrite try_except_run, bind_run.
    unfold get_kb_instance. by rewrite Hkb.
  - unfold cleanup. rewrite try_except_run, bind_run.
    unfold get_kb_instance. by rewrite Hkb.
Qed.

End QueryExits.

(** ** Teardown: what [delete_kb] does besides the ordering *)

Section DeleteMore.
Context (W : world).

(** X12: without the purge flag [delete_kb] never touches the storage: no
    listing, no object deletion, no bucket deletion, whatever the services
    answer. *)
Theorem delete_kb_keeps_storage self st :
  exists evs,
    trace (delete_kb W self false st).2 = trace st ++ evs
    /\ Forall (quiet storage_call) evs.
Proof.
  assert (steps (appends (quiet storage_call)) (delete_kb W self false)) as H.
  { unfold delete_kb, delete_one_data_source. cbn match.
    steps_structure; by cbn; try intros []. }
  destruct (H st) as [_ Hevs]. exact Hevs.
Qed.

(** X13: every error of a call made by [delete_kb] is raised again to the
    caller, and the teardown stops there: no call is made after the one that
    raised, so what was not yet deleted stays. *)
Theorem delete_kb_stops_at_first_error self purge :
  propagating W any_call (delete_kb W self purge).
Proof.
  unfold delete_kb, delete_one_data_source, purge_bucket. propagating_structure.
Qed.

Lemma comprehension_keys objs keys :
  Forall2 (fun obj key => getitem obj "Key" = inr key) objs keys ->
  comprehension (fun obj => getitem obj "Key") objs = inr keys.
Proof.
  induction 1 as [|obj key objs keys Hk _ IH]; [reflexivity|].
  cbn. by rewrite Hk, IH.
Qed.

(** X14: a bucket whose listing has no [Contents] is deleted without any
    [delete_objects] call. *)
Theorem purge_empty_bucket source st objects deleted :
  is_S3 source = true ->
  W (trace st) (S3_list_objects_v2 (bucket_name source)) = inr objects ->
  contains "Contents" objects = inr false ->
  W (trace st ++ [Call (S3_list_objects_v2 (bucket_name source))])
    (S3_delete_bucket (bucket_name source)) = inr deleted ->
  purge_bucket W source st
  = (inr tt,
     with_trace st
       (trace st ++ [Call (S3_list_objects_v2 (bucket_name source));
                     Call (S3_delete_bucket (bucket_name source));
                     Log INFO ("Deleted S3 bucket: " +:+ bucket_name source)])).
Proof.
  intros HS3 Hlist Hno Hdel. unfold purge_bucket. rewrite HS3.
  run_with Hlist. run_with Hno. run_with Hdel. reflexivity.
Qed.

(** X15: a bucket whose listing has [Contents] is emptied with one
    [delete_objects] call that carries exactly the listed keys, in the order
    of the listing, and is then deleted. *)
Theorem purge_deletes_listed_keys source st objects contents objs keys emptied deleted :
  is_S3 source = true ->
  W (trace st) (S3_list_objects_v2 (bucket_name source)) = inr objects ->
  contains "Contents" objects = inr true ->
  getitem objects "Contents" = inr contents -> iter contents = inr objs ->
  Forall2 (fun obj key => getitem obj "Key" = inr key) objs keys ->
  W (trace st ++ [Call (S3_list_objects_v2 (bucket_name source))])
    (S3_delete_objects (bucket_name source) keys) = inr emptied ->
  W (trace st ++ [Call (S3_list_objects_v2 (bucket_name source));
                  Call (S3_delete_objects (bucket_name source) keys)])
    (S3_delete_bucket (bucket_name source)) = inr deleted ->
  purge_bucket W source st
  = (inr tt,
     with_trace st
       (trace st ++ [Call (S3_list_objects_v2 (bucket_name source));
                     Call (S3_delete_objects (bucket_name source) keys);
                     Call (S3_delete_bucket (bucket_name source));
                     Log INFO ("Deleted S3 bucket: " +:+ bucket_name source)])).
Proof.
  intros HS3 Hlist Hyes Hcontents Hiter Hkeys Hempty Hdel.
  unfold purge_bucket. rewrite HS3.
  run_with Hlist. run_with Hyes. run_with Hcontents. run_with Hiter.
  run_with (comprehension_keys _ _ Hkeys). run_with Hempty. run_with Hdel.
  reflexivity.
Qed.

End DeleteMore.

(** ** Provisioning: the calls of [_setup_knowledge_base] *)

Lemma calls_app a b : calls (a ++ b) = calls a ++ calls b.
Proof. apply omap_app. Qed.

Section SetupCalls.
Context (W : world) (region : value) (data_bucket_name : string).

Lemma bucket_loop_calls sources st :
  exists evs,
    trace (for_each sources (create_source_bucket W) st).2 = trace st ++ evs
    /\ calls evs = map S3_create_bucket (s3_buckets sources).
Proof.
  revert st. induction sources as [|s l IH]; intros st.
  - exists []. by rewrite app_nil_r.
  - cbn [for_each s3_buckets]. rewrite bind_run, create_source_bucket_run.
    destruct (is_S3 s); [|exact (IH st)].
    cbv beta iota zeta.
    match goal with |- context [for_each l _ ?s1] =>
      destruct (IH s1) as (evs & Htr & Hcalls) end.
    eexists ([Call (S3_create_bucket (bucket_name s)); _] ++ evs).
    split; [rewrite Htr; cbn; by rewrite <- app_assoc|].
    rewrite calls_app, Hcalls.
    by destruct (W (trace st) (S3_create_bucket (bucket_name s))).
Qed.

Lemma create_role_success self st arn st' :
  _create_role_for_kb W data_bucket_name self st = (inr arn, st') ->
  exists policy_arn,
    trace st' = trace st
      ++ [ Call (Iam_create_role ("BedrockKBRole-" +:+ suffix self));
           Call (Iam_create_policy ("BedrockKBPolicy-" +:+ suffix self)
                   [ "arn:aws:s3:::" +:+ data_bucket_name;
                     "arn:aws:s3:::" +:+ data_bucket_name +:+ "/*" ]);
           Call (Iam_attach_role_policy ("BedrockKBRole-" +:+ suffix self) policy_arn) ].
Proof.
  unfold _create_role_for_kb. intros H%reraise_inr.
  apply bind_inr in H as (response & st1 & [_ ->]%invoke_inr & H).
  apply bind_inr in H as (policy_response & st2 & [_ ->]%invoke_inr & H).
  apply bind_inr in H as (policy & st3 & [_ ->]%lift_inr & H).
  apply bind_inr in H as (policy_arn & st4 & [_ ->]%lift_inr & H).
  apply bind_inr in H as (attached & st5 & [_ ->]%invoke_inr & H).
  apply bind_inr in H as (role & st6 & [_ ->]%lift_inr & H).
  apply lift_inr in H as [_ ->].
  exists policy_arn. cbn. by rewrite <- !app_assoc.
Qed.

Lemma add_data_source_success self b st id st' :
  _add_s3_data_source W self b st = (inr id, st') ->
  trace st' = trace st ++ [ Call (data_source_call self (kb_id self) b);
                            Log INFO ("Added S3 data source: " +:+ b) ].
Proof.
  unfold _add_s3_data_source. intros H%reraise_inr.
  apply bind_inr in H as (response & st1 & [_ ->]%invoke_inr & H).
  apply bind_inr in H as ([] & st2 & Hlog & H). rewrite logger_run in Hlog.
  injection Hlog as <-.
  apply bind_inr in H as (ds & st3 & [_ ->]%lift_inr & H).
  apply lift_inr in H as [_ ->]. cbn. by rewrite <- !app_assoc.
Qed.

Lemma data_source_loop_success self sources st st' :
  for_each sources (fun source =>
    if is_S3 source then _add_s3_data_source W self (bucket_name source);; mret tt
    else mret tt) st = (inr tt, st') ->
  exists evs,
    trace st' = trace st ++ evs
    /\ calls evs = map (data_source_call self (kb_id self)) (s3_buckets sources).
Proof.
  revert st. induction sources as [|s l IH]; intros st.
  - intros [= <-]. exists []. by rewrite app_nil_r.
  - cbn [for_each s3_buckets]. intros H.
    apply bind_inr in H as ([] & st1 & Hs & H).
    destruct (IH _ H) as (evs & Htr & Hcalls).
    destruct (is_S3 s).
    + apply bind_inr in Hs as (id & st2 & Hadd & [= <-]).
      apply add_data_source_success in Hadd.
      eexists ([_; _] ++ evs). split; [rewrite Htr, Hadd; by rewrite <- app_assoc|].
      rewrite calls_app, Hcalls. reflexivity.
    + injection Hs as <-. by exists evs.
Qed.

(** X16: a provisioning that goes through makes exactly these calls, in this
    order: one bucket creation per S3 data source; the role, its policy
    (scoped to the data bucket and its objects) and the attachment; the
    knowledge base with that role; then one data source per S3 bucket, each
    bound to the identifier the service returned.  Sources of another type
    get neither bucket nor data source.  The object comes back with that
    identifier, which is also the value returned. *)
Theorem setup_success_calls self st self' id st' :
  _setup_knowledge_base W region data_bucket_name self st = (inr (self', id), st') ->
  self' = set_kb_id self id
  /\ exists evs roleArn policyArn,
       trace st' = trace st ++ evs
       /\ calls evs = provisioning_calls region data_bucket_name self roleArn policyArn id.
Proof.
  unfold _setup_knowledge_base. intros H.
  apply bind_inr in H as ([] & st1 & Hloop & H).
  destruct (bucket_loop_calls (data_sources self) st) as (evs_b & Htr_b & Hcalls_b).
  rewrite Hloop in Htr_b. cbn [snd] in Htr_b.
  apply reraise_inr in H.
  apply bind_inr in H as (roleArn & st2 & Hrole & H).
  apply create_role_success in Hrole as [policyArn Htr_r].
  apply bind_inr in H as (response & st3 & [_ ->]%invoke_inr & H).
  apply bind_inr in H as (kb & st4 & [_ ->]%lift_inr & H).
  apply bind_inr in H as (id' & st5 & [_ ->]%lift_inr & H).
  cbn zeta in H.
  apply bind_inr in H as ([] & st6 & Hlog & H). rewrite logger_run in Hlog.
  injection Hlog as <-.
  apply bind_inr in H as ([] & st7 & Hds & H).
  apply data_source_loop_success in Hds as (evs_d & Htr_d & Hcalls_d).
  rewrite ret_run in H. injection H as <- <- <-.
  split; [reflexivity|].
  exists (evs_b
          ++ [ Call (Iam_create_role ("BedrockKBRole-" +:+ suffix self));
               Call (Iam_create_policy ("BedrockKBPolicy-" +:+ suffix self)
                       [ "arn:aws:s3:::" +:+ data_bucket_name;
                         "arn:aws:s3:::" +:+ data_bucket_name +:+ "/*" ]);
               Call (Iam_attach_role_policy ("BedrockKBRole-" +:+ suffix self) policyArn);
               Call (Agent_create_knowledge_base (kb_name self) (kb_description self)
                       roleArn
                       ("arn:aws:bedrock:" +:+ str region
                          +:+ "::foundation-model/amazon.titan-embed-text-v1"));
               Log INFO ("Created Knowledge Base with ID: " +:+ str id') ]
          ++ evs_d), roleArn, policyArn.
  split.
  - rewrite Htr_d. cbn [trace with_trace]. rewrite Htr_r, Htr_b.
    rewrite <- !app_assoc. reflexivity.
  - unfold provisioning_calls. rewrite !calls_app, Hcalls_b, Hcalls_d. reflexivity.
Qed.

(** X17: provisioning only ever creates.  Whatever the services answer, every
    call of [_setup_knowledge_base] is a creating call: a failure part of the
    way rolls nothing back, and what was created stays. *)
Theorem setup_never_rolls_back self st :
  exists evs,
    trace (_setup_knowledge_base W region data_bucket_name self st).2 = trace st ++ evs
    /\ Forall provisioning_event evs.
Proof.
  assert (steps (appends provisioning_event)
            (_setup_knowledge_base W region data_bucket_name self)) as H.
  { unfold _setup_knowledge_base, create_source_bucket, _create_role_for_kb,
      _add_s3_data_source. steps_structure; exact I. }
  destruct (H st) as [_ Hevs]. exact Hevs.
Qed.

End SetupCalls.

(** ** Startup: [initialize_kb] and what the handlers find afterwards *)

Section StartupProperties.
Context (W : world) (region : value) (timestamp_str account_id : string)
        (json_loads : string -> result value)
        (format_fields : string -> list value -> result string).

Lemma setup_quietly data_bucket self :
  steps (quietly any_event) (_setup_knowledge_base W region data_bucket self).
Proof.
  unfold _setup_knowledge_base, create_source_bucket, _create_role_for_kb,
    _add_s3_data_source. quietly_structure; exact I.
Qed.

Lemma setup_returns_self data_bucket self st self' id st' :
  _setup_knowledge_base W region data_bucket self st = (inr (self', id), st') ->
  self' = set_kb_id self id.
Proof.
  unfold _setup_knowledge_base. intros H.
  apply bind_inr in H as ([] & st1 & _ & H). apply reraise_inr in H.
  repeat (apply bind_inr in H as (? & ? & _ & H)).
  rewrite ret_run in H. by injection H as <- <- _.
Qed.

Lemma initialize_kb_inr st id st' :
  initialize_kb W region timestamp_str account_id st = (inr id, st') ->
  kb_instance st'
  = Some {| kb_name := knowledge_base_name timestamp_str;
            kb_description := "Knowledge base for PDF documents";
            data_sources := [ {| source_type := "S3";
                                 bucket_name := data_bucket_name timestamp_str account_id |} ];
            chunking_strategy := "FIXED_SIZE";
            suffix := timestamp_str;
            kb_id := id |}.
Proof.
  unfold initialize_kb, __init__. intros H.
  apply bind_inr in H as (kb & st1 & Hinit & H).
  apply bind_inr in Hinit as ([self' id'] & st2 & Hsetup & Hret).
  apply setup_returns_self in Hsetup as ->.
  rewrite ret_run in Hret. injection Hret as <- <-.
  rewrite bind_run in H. unfold bind_kb_instance in H. cbv beta iota in H.
  rewrite bind_run in H. unfold get_kb_instance in H. cbn in H.
  by injection H as <- <-.
Qed.

(** X18: [initialize_kb] binds [kb_instance] exactly when provisioning went
    through.  On success the object bound carries the identifier returned,
    the name and the single S3 source built from the settings; when
    [initialize_kb] raises, the name [kb_instance] is left as it was
    (unbound at startup): no half-built object is ever visible to the
    handlers. *)
Theorem initialize_kb_binds st :
  match initialize_kb W region timestamp_str account_id st with
  | (inr id, st') =>
      exists kb,
        kb_instance st' = Some kb /\ kb_id kb = id
        /\ kb_name kb = knowledge_base_name timestamp_str
        /\ data_sources kb
           = [ {| source_type := "S3";
                  bucket_name := data_bucket_name timestamp_str account_id |} ]
  | (inl e, st') => kb_instance st' = kb_instance st
  end.
Proof.
  destruct (initialize_kb W region timestamp_str account_id st) as [[e | id] st'] eqn:H.
  - unfold initialize_kb, __init__ in H. rewrite !bind_run in H.
    match type of H with context [_setup_knowledge_base _ _ ?b ?s st] =>
      pose proof (setup_quietly b s st) as [[Hkb _] _];
      destruct (_setup_knowledge_base W region b s st) as [[e' | created] st1]
    end.
    + by injection H as _ <-.
    + rewrite ret_run in H. cbv beta iota in H. unfold bind_kb_instance in H.
      cbv beta iota in H. unfold get_kb_instance in H. cbn in H. discriminate H.
  - apply initialize_kb_inr in H. eexists. split; [exact H|]. by repeat split.
Qed.

(** The retrieval is the first event of a query. *)
Lemma query_first_call req st q kb :
  method req = POST -> assoc "query" (form req) = Some q -> q <> "" ->
  kb_instance st = Some kb ->
  exists rest,
    trace (query_kb W json_loads format_fields req st).2
    = trace st ++ Call (Runtime_retrieve q (kb_id kb) 5 "HYBRID") :: rest.
Proof.
  intros Hm Hq Hne Hkb. rewrite (query_kb_post _ _ _ _ _ _ Hm Hq Hne).
  unfold retrieve_and_generate. rewrite (try_get_kb _ _ _ _ Hkb).
  match goal with |- context [try_except ?m ?h st] =>
    assert (steps (first_then (Call (Runtime_retrieve q (kb_id kb) 5 "HYBRID"))
                              any_event) (try_except m h)) as Hfirst
  end.
  { apply steps_first_try; [apply steps_first_bind; [apply steps_first_invoke|]|];
      steps_structure; exact I. }
  destruct (Hfirst st) as [_ (rest & Htr & _)]. by exists rest.
Qed.

(** The listing of the data sources is the first event of a cleanup. *)
Lemma cleanup_first_call st kb :
  kb_instance st = Some kb -> truthy (kb_id kb) = true ->
  exists rest,
    trace (cleanup W st).2 = trace st ++ Call (Agent_list_data_sources (kb_id kb)) :: rest.
Proof.
  intros Hkb Hid. unfold cleanup. rewrite (try_get_kb _ _ _ _ Hkb).
  match goal with |- context [try_except ?m ?h st] =>
    assert (steps (first_then (Call (Agent_list_data_sources (kb_id kb))) any_event)
              (try_except m h)) as Hfirst
  end.
  { apply steps_first_try; [apply steps_first_bind|].
    - unfold delete_kb. rewrite Hid.
      apply steps_first_try; [apply steps_first_bind; [apply steps_first_invoke|]|].
      + unfold delete_one_data_source, purge_bucket. steps_structure; exact I.
      + steps_structure. exact I.
    - steps_structure.
    - steps_structure. exact I. }
  destruct (Hfirst st) as [_ (rest & Htr & _)]. by exists rest.
Qed.

(** X19: the handlers work on what startup created.  After an
    [initialize_kb] that returned [id], a query retrieves from the knowledge
    base [id] and a cleanup starts by listing the data sources of [id]. *)
Theorem initialize_then_handlers st id st1 req q :
  initialize_kb W region timestamp_str account_id st = (inr id, st1) ->
  method req = POST -> assoc "query" (form req) = Some q -> q <> "" ->
  truthy id = true ->
  (exists rest,
     trace (query_kb W json_loads format_fields req st1).2
     = trace st1 ++ Call (Runtime_retrieve q id 5 "HYBRID") :: rest)
  /\ (exists rest,
        trace (cleanup W st1).2 = trace st1 ++ Call (Agent_list_data_sources id) :: rest).
Proof.
  intros Hinit Hm Hq Hne Hid. apply initialize_kb_inr in Hinit. split.
  - by apply (query_first_call req st1 q _ Hm Hq Hne Hinit).
  - by apply (cleanup_first_call st1 _ Hinit).
Qed.

End StartupProperties.

(** ** The status route *)

Section StatusProperties.
Context (W : Status.world).

Lemma job_entries jobs :
  Forall (fun job => exists entry, job_entry_of job entry) jobs ->
  exists entries,
    comprehension Status.job_entry jobs = inr entries
    /\ Forall2 job_entry_of jobs entries.
Proof.
  induction 1 as [|job jobs (entry & id & s & Hid & Hs & ->) _ (entries & Hc & Hall)].
  - exists []. by split.
  - exists (VDict [ ("id", id); ("status", s) ] :: entries). split.
    + cbn [comprehension]. unfold Status.job_entry at 1. rewrite Hid. cbn.
      rewrite Hs. cbn. by rewrite Hc.
    + constructor; [|exact Hall]. by exists id, s.
Qed.

(** X20: when both reads go through, [status] answers 200 with the identifier
    of the bound knowledge base, the state the service reports, and one
    [{id, status}] entry per job summary, in the order of the listing; it
    makes the two reads, in this order, and logs nothing. *)
Theorem status_lists_every_job h kb described kb_dict kb_state listed jobs :
  W h (Status.Agent_get_knowledge_base (kb_id kb)) = inr described ->
  getitem described "knowledgeBase" = inr kb_dict ->
  getitem kb_dict "status" = inr kb_state ->
  W (h ++ [Status.Call (Status.Agent_get_knowledge_base (kb_id kb))])
    (Status.Agent_list_ingestion_jobs (kb_id kb)) = inr listed ->
  get listed "ingestionJobSummaries" (VList []) = inr (VList jobs) ->
  Forall (fun job => exists entry, job_entry_of job entry) jobs ->
  exists entries,
    Status.status W h (Some kb)
    = ({| body_of := jsonify [ ("kb_id", kb_id kb); ("kb_status", kb_state);
                               ("ingestion_jobs", VList entries) ];
          status := 200 |},
       [ Status.Call (Status.Agent_get_knowledge_base (kb_id kb));
         Status.Call (Status.Agent_list_ingestion_jobs (kb_id kb)) ])
    /\ Forall2 job_entry_of jobs entries.
Proof.
  intros Hget Hkb Hstate Hlist Hsummaries Hjobs.
  destruct (job_entries jobs Hjobs) as (entries & Hc & Hall).
  exists entries. split; [|exact Hall].
  unfold Status.status, Status.describe, get_knowledge_base_id. cbn zeta.
  rewrite Hget, Hlist. unfold Status.status_dict.
  rewrite Hkb. cbn. rewrite Hstate. cbn. rewrite Hsummaries. cbn.
  by rewrite Hc.
Qed.

(** X21: when the knowledge base cannot be described, [status] answers 500
    with the message of the exception, logs it, and does not ask for the
    ingestion jobs. *)
Theorem status_describe_error h kb e :
  W h (Status.Agent_get_knowledge_base (kb_id kb)) = inl e ->
  Status.status W h (Some kb)
  = (error_response (exn_str e) 500,
     [ Status.Call (Status.Agent_get_knowledge_base (kb_id kb));
       Status.Log ERROR ("Error getting status: " +:+ exn_str e) ]).
Proof.
  intros Hget. unfold Status.status, Status.describe, get_knowledge_base_id.
  cbn zeta. by rewrite Hget.
Qed.

(** X22: a listing without the key [ingestionJobSummaries] counts as no job:
    [status] answers 200 with an empty [ingestion_jobs] list instead of
    failing on the missing key. *)
Theorem status_without_summaries h kb described kb_dict kb_state listing :
  W h (Status.Agent_get_knowledge_base (kb_id kb)) = inr described ->
  getitem described "knowledgeBase" = inr kb_dict ->
  getitem kb_dict "status" = inr kb_state ->
  W (h ++ [Status.Call (Status.Agent_get_knowledge_base (kb_id kb))])
    (Status.Agent_list_ingestion_jobs (kb_id kb)) = inr (VDict listing) ->
  assoc "ingestionJobSummaries" listing = None ->
  (Status.status W h (Some kb)).1
  = {| body_of := jsonify [ ("kb_id", kb_id kb); ("kb_status", kb_state);
                            ("ingestion_jobs", VList []) ];
       status := 200 |}.
Proof.
  intros Hget Hkb Hstate Hlist Hnone.
  unfold Status.status, Status.describe, get_knowledge_base_id. cbn zeta.
  rewrite Hget, Hlist. unfold Status.status_dict.
  rewrite Hkb. cbn. rewrite Hstate. cbn. by rewrite Hnone.
Qed.

End StatusProperties.

(** ** [allowed_file], by the shape of the name *)

Lemma lower_app a b : lower (a +:+ b) = lower a +:+ lower b.
Proof.
  induction a as [|c a IH]; [reflexivity|].
  rewrite append_cons. cbn [lower]. by rewrite IH, append_cons.
Qed.

Lemma ends_with_app suf a : ends_with suf (a +:+ suf) = true.
Proof.
  induction a as [|c a IH].
  - change (EmptyString +:+ suf) with suf.
    destruct suf; cbn [ends_with]; by rewrite String.eqb_refl.
  - rewrite append_cons. cbn [ends_with]. rewrite IH. apply orb_true_r.
Qed.

(** X23: [allowed_file] never raises, and it accepts a name exactly when the
    name is some stem, a dot, and an extension that reads [pdf] once
    lowercased: the extension is what follows the last dot, its case does
    not matter, and a name without a dot is refused. *)
Theorem allowed_file_accepts_pdf filename :
  (exists b, allowed_file filename = inr b)
  /\ (allowed_file filename = inr true <->
      exists stem ext, filename = stem +:+ "." +:+ ext /\ lower ext = "pdf").
Proof.
  split; [rewrite allowed_file_spec; eauto|]. split.
  - unfold allowed_file. destruct (str_contains "."%char filename) eqn:Hdot;
      [|discriminate].
    destruct (rsplit1_sep _ _ Hdot) as (a & b & Hsplit & -> & _).
    rewrite Hsplit. cbn [lookup list_lookup]. rewrite in_allowed.
    intros [= Hb%String.eqb_eq]. by exists a, b.
  - intros (stem & ext & -> & Hext). rewrite allowed_file_spec. f_equal.
    unfold has_pdf_extension. rewrite !lower_app, Hext.
    change (lower ".") with ".".
    change ("." +:+ "pdf") with ".pdf". apply ends_with_app.
Qed.

(** ** The further statements at work on the scenarios *)

Lemma upload_save_error_escapes_witness :
  upload_file services_disk_full secure_plain "bedrock-kb-data-1"
    (post_file "report.pdf") st_ready
  = (inl (Exn "OSError" "[Errno 28] No space left on device"),
     with_trace st_ready
       (trace st_ready ++ [Call (File_save (local_path secure_plain report_pdf))])).
Proof.
  apply (upload_save_error_escapes services_disk_full secure_plain "bedrock-kb-data-1"
           (post_file "report.pdf") report_pdf st_ready);
    vm_compute; reflexivity.
Defined.

Lemma upload_success_response_witness :
  exists st',
    upload_file services_ok secure_plain "bedrock-kb-data-1" (post_file "report.pdf") st_ready
    = (inr (uploaded_response (secure_plain (filename report_pdf)) (VStr "JOB1")), st')
    /\ trace st'
       = trace st_ready
         ++ [Call (File_save (local_path secure_plain report_pdf));
             Call (upload_call secure_plain "bedrock-kb-data-1" report_pdf);
             Call (Agent_start_ingestion_job (kb_id kb_ready));
             Log INFO ("Started ingestion job: " +:+ str (VStr "JOB1"))]
    /\ (local_path secure_plain report_pdf ∉ disk st')
    /\ kb_instance st' = Some kb_ready.
Proof.
  apply (upload_success_response services_ok secure_plain "bedrock-kb-data-1"
           (post_file "report.pdf") report_pdf st_ready kb_ready VNone VNone
           (dict1 "ingestionJob" "ingestionJobId" (VStr "JOB1"))
           (VDict [ ("ingestionJobId", VStr "JOB1") ]) (VStr "JOB1"));
    vm_compute; reflexivity.
Defined.

Lemma upload_copy_error_witness :
  exists st',
    upload_file services_s3_down secure_plain "bedrock-kb-data-1"
      (post_file "report.pdf") st_ready
    = (inr (error_response (exn_str (Exn "S3UploadFailedError" "Failed to upload")) 500), st')
    /\ trace st'
       = trace st_ready
         ++ [Call (File_save (local_path secure_plain report_pdf));
             Call (upload_call secure_plain "bedrock-kb-data-1" report_pdf);
             Log ERROR ("Error uploading file: "
                        +:+ exn_str (Exn "S3UploadFailedError" "Failed to upload"))]
    /\ local_path secure_plain report_pdf ∉ disk st'.
Proof.
  apply (upload_copy_error services_s3_down secure_plain "bedrock-kb-data-1"
           (post_file "report.pdf") report_pdf st_ready VNone);
    vm_compute; reflexivity.
Defined.

Lemma upload_without_kb_instance_witness :
  exists st',
    upload_file services_ok secure_plain "bedrock-kb-data-1" (post_file "report.pdf") st_start
    = (inr (error_response "name 'kb_instance' is not defined" 500), st')
    /\ trace st'
       = trace st_start
         ++ [Call (File_save (local_path secure_plain report_pdf));
             Call (upload_call secure_plain "bedrock-kb-data-1" report_pdf);
             Log ERROR "Error uploading file: name 'kb_instance' is not defined"].
Proof.
  apply (upload_without_kb_instance services_ok secure_plain "bedrock-kb-data-1"
           (post_file "report.pdf") report_pdf st_start VNone VNone);
    vm_compute; reflexivity.
Defined.

Lemma upload_ingestion_error_witness :
  exists st',
    upload_file services_ingestion_down secure_plain "bedrock-kb-data-1"
      (post_file "report.pdf") st_ready
    = (inr (error_response (exn_str (Exn "ClientError" "ThrottlingException")) 500), st')
    /\ trace st'
       = trace st_ready
         ++ [Call (File_save (local_path secure_plain report_pdf));
             Call (upload_call secure_plain "bedrock-kb-data-1" report_pdf);
             Call (Agent_start_ingestion_job (kb_id kb_ready));
             Log ERROR ("Error starting ingestion job: "
                        +:+ exn_str (Exn "ClientError" "ThrottlingException"));
             Log ERROR ("Error uploading file: "
                        +:+ exn_str (Exn "ClientError" "ThrottlingException"))]
    /\ local_path secure_plain report_pdf ∉ disk st'.
Proof.
  apply (upload_ingestion_error services_ingestion_down secure_plain "bedrock-kb-data-1"
           (post_file "report.pdf") report_pdf st_ready kb_ready VNone VNone);
    vm_compute; reflexivity.
Defined.

Lemma query_kb_answers_witness :
  exists r st',
    query_kb services_ok loads_answer no_fields (post_query "What was Q1 revenue?") st_ready
    = (inr r, st')
    /\ (r = error_response "No query provided" 400 /\ st' = st_ready
        \/ (exists v, r = {| body_of := Raw v; status := 200 |})
        \/ exists e,
             r = error_response (exn_str e) 500
             /\ last (trace st')
                = Some (Log ERROR ("Error querying knowledge base: " +:+ exn_str e))).
Proof.
  apply (query_kb_answers services_ok loads_answer no_fields (post_query "What was Q1 revenue?")
           st_ready). reflexivity.
Defined.

Lemma query_retrieval_error_witness :
  query_kb services_retrieval_down loads_answer no_fields (post_query "What was Q1 revenue?") st_ready
  = (inr (error_response (exn_str (Exn "ClientError" "ValidationException")) 500),
     with_trace st_ready
       (trace st_ready
        ++ [Call (Runtime_retrieve "What was Q1 revenue?" (kb_id kb_ready) 5 "HYBRID");
            Log ERROR ("Error querying knowledge base: "
                       +:+ exn_str (Exn "ClientError" "ValidationException"))])).
Proof.
  apply (query_retrieval_error services_retrieval_down loads_answer no_fields
           (post_query "What was Q1 revenue?") st_ready "What was Q1 revenue?" kb_ready);
    [reflexivity | reflexivity | discriminate | reflexivity | by left].
Defined.


Lemma handlers_without_kb_instance_witness :
  query_kb services_ok loads_answer no_fields (post_query "What was Q1 revenue?") st_start
  = (inr (error_response "name 'kb_instance' is not defined" 500),
     with_trace st_start (trace st_start ++ [Log ERROR
       "Error querying knowledge base: name 'kb_instance' is not defined"]))
  /\ cleanup services_ok st_start
     = (inr (error_response "name 'kb_instance' is not defined" 500),
        with_trace st_start (trace st_start ++ [Log ERROR
          "Error cleaning up: name 'kb_instance' is not defined"])).
Proof.
  apply (handlers_without_kb_instance services_ok loads_answer no_fields
           (post_query "What was Q1 revenue?") st_start "What was Q1 revenue?");
    first [ reflexivity | discriminate ].
Defined.

Lemma purge_empty_bucket_witness :
  purge_bucket services_empty_bucket pdf_source st_ready
  = (inr tt,
     with_trace st_ready
       (trace st_ready ++ [Call (S3_list_objects_v2 (bucket_name pdf_source));
                           Call (S3_delete_bucket (bucket_name pdf_source));
                           Log INFO ("Deleted S3 bucket: " +:+ bucket_name pdf_source)])).
Proof.
  apply (purge_empty_bucket services_empty_bucket pdf_source st_ready
           (VDict [ ("KeyCount", VInt 0) ]) VNone);
    reflexivity.
Defined.

Lemma purge_deletes_listed_keys_witness :
  purge_bucket services_ok pdf_source st_ready
  = (inr tt,
     with_trace st_ready
       (trace st_ready
        ++ [Call (S3_list_objects_v2 (bucket_name pdf_source));
            Call (S3_delete_objects (bucket_name pdf_source) [ VStr "report.pdf" ]);
            Call (S3_delete_bucket (bucket_name pdf_source));
            Log INFO ("Deleted S3 bucket: " +:+ bucket_name pdf_source)])).
Proof.
  apply (purge_deletes_listed_keys services_ok pdf_source st_ready
           (VDict [ ("Contents", VList [ VDict [ ("Key", VStr "report.pdf") ] ]) ])
           (VList [ VDict [ ("Key", VStr "report.pdf") ] ])
           [ VDict [ ("Key", VStr "report.pdf") ] ] [ VStr "report.pdf" ] VNone VNone);
    try reflexivity.
  by repeat constructor.
Defined.

Lemma setup_success_calls_witness :
  kb_ready = set_kb_id kb_fresh (VStr "KB1")
  /\ exists evs roleArn policyArn,
       trace (_setup_knowledge_base services_ok (VStr "us-east-1") "bedrock-kb-data-1"
                kb_fresh st_start).2 = trace st_start ++ evs
       /\ calls evs
          = provisioning_calls (VStr "us-east-1") "bedrock-kb-data-1" kb_fresh
              roleArn policyArn (VStr "KB1").
Proof.
  apply (setup_success_calls services_ok (VStr "us-east-1") "bedrock-kb-data-1"
           kb_fresh st_start kb_ready (VStr "KB1")).
  vm_compute. reflexivity.
Defined.

Lemma initialize_then_handlers_witness :
  (exists rest,
     trace (query_kb services_ok loads_answer no_fields (post_query "What was Q1 revenue?")
              st_started).2
     = trace st_started
       ++ Call (Runtime_retrieve "What was Q1 revenue?" (VStr "KB1") 5 "HYBRID") :: rest)
  /\ (exists rest,
        trace (cleanup services_ok st_started).2
        = trace st_started ++ Call (Agent_list_data_sources (VStr "KB1")) :: rest).
Proof.
  apply (initialize_then_handlers services_ok (VStr "us-east-1") "1234567" "42"
           loads_answer no_fields st_start (VStr "KB1") st_started
           (post_query "What was Q1 revenue?") "What was Q1 revenue?");
    first [ vm_compute; reflexivity | discriminate ].
Defined.

Lemma status_lists_every_job_witness :
  exists entries,
    Status.status status_ok [] (Some kb_ready)
    = ({| body_of := jsonify [ ("kb_id", kb_id kb_ready); ("kb_status", VStr "ACTIVE");
                               ("ingestion_jobs", VList entries) ];
          status := 200 |},
       [ Status.Call (Status.Agent_get_knowledge_base (kb_id kb_ready));
         Status.Call (Status.Agent_list_ingestion_jobs (kb_id kb_ready)) ])
    /\ Forall2 job_entry_of
         [ VDict [ ("ingestionJobId", VStr "JOB1"); ("status", VStr "COMPLETE") ] ]
         entries.
Proof.
  apply (status_lists_every_job status_ok [] kb_ready
           (dict1 "knowledgeBase" "status" (VStr "ACTIVE"))
           (VDict [ ("status", VStr "ACTIVE") ]) (VStr "ACTIVE")
           (VDict [ ("ingestionJobSummaries",
                     VList [ VDict [ ("ingestionJobId", VStr "JOB1");
                                     ("status", VStr "COMPLETE") ] ]) ]));
    try reflexivity.
  repeat constructor. eexists. eexists (VStr "JOB1"), (VStr "COMPLETE"). by repeat split.
Defined.

Lemma status_describe_error_witness :
  Status.status status_gone [] (Some kb_ready)
  = (error_response
       (exn_str (Exn "ResourceNotFoundException" "Knowledge base KB1 is not found")) 500,
     [ Status.Call (Status.Agent_get_knowledge_base (kb_id kb_ready));
       Status.Log ERROR
         ("Error getting status: "
          +:+ exn_str (Exn "ResourceNotFoundException" "Knowledge base KB1 is not found")) ]).
Proof.
  apply (status_describe_error status_gone [] kb_ready). reflexivity.
Defined.

Lemma status_without_summaries_witness :
  (Status.status status_no_jobs [] (Some kb_ready)).1
  = {| body_of := jsonify [ ("kb_id", kb_id kb_ready); ("kb_status", VStr "ACTIVE");
                            ("ingestion_jobs", VList []) ];
       status := 200 |}.
Proof.
  apply (status_without_summaries status_no_jobs [] kb_ready
           (dict1 "knowledgeBase" "status" (VStr "ACTIVE"))
           (VDict [ ("status", VStr "ACTIVE") ]) (VStr "ACTIVE")
           [ ("nextToken", VNone) ]);
    reflexivity.
Defined.
